(** * mlflow-export-import: model export and run copy

  A shallow embedding of
    - [mlflow_export_import/model/export_model.py]
    - [mlflow_export_import/copy/copy_run.py]
  and the properties of their orchestration logic.

  Python values are a small JSON-like universe, dicts are insertion-ordered
  association lists, exceptions are a result type, and the effects of a
  call (log lines, calls to the tracking server, files written) are
  recorded in a trace that is threaded through the code. *)

From Stdlib Require Import String Ascii ZArith NArith Bool Lia.
From Stdlib Require Import List Sorted Permutation.
Import ListNotations.
Open Scope string_scope.
Open Scope list_scope.

(* ================================================================== *)
(** * Python values, dicts and exceptions *)
(* ================================================================== *)

Module Py.

#[local] Set Warnings "-register-all".

(** JSON-like values as the REST client returns them. A dict keeps the
    insertion order of its keys, like a Python [dict]. *)
Inductive pyval : Type :=
| VNone
| VBool (b : bool)
| VInt (z : Z)
| VStr (s : string)
| VList (l : list pyval)
| VDict (d : list (string * pyval)).

Definition dict : Type := list (string * pyval).

(** [bool(v)]: the truth value Python gives to [if v:]. *)
Definition truthy (v : pyval) : bool :=
  match v with
  | VNone => false
  | VBool b => b
  | VInt z => negb (z =? 0)%Z
  | VStr s => negb (s =? "")
  | VList l => match l with [] => false | _ :: _ => true end
  | VDict d => match d with [] => false | _ :: _ => true end
  end.

(** [d.get(k)] *)
Fixpoint dict_get (k : string) (d : dict) : option pyval :=
  match d with
  | [] => None
  | (k', v) :: d' => if k =? k' then Some v else dict_get k d'
  end.

(** [d.get(k, None)] *)
Definition dict_get_none (k : string) (d : dict) : pyval :=
  match dict_get k d with Some v => v | None => VNone end.

(** [d[k] = v]: an existing key keeps its position, a new key goes last. *)
Fixpoint dict_set (k : string) (v : pyval) (d : dict) : dict :=
  match d with
  | [] => [(k, v)]
  | (k', v') :: d' =>
      if k =? k' then (k', v) :: d' else (k', v') :: dict_set k v d'
  end.

(** The dict left by [d.pop(k, None)]. *)
Definition dict_remove (k : string) (d : dict) : dict :=
  filter (fun kv => negb (k =? fst kv)) d.

(** [d.pop(k, None)]: the value popped and the dict that is left. *)
Definition dict_pop (k : string) (d : dict) : pyval * dict :=
  (dict_get_none k d, dict_remove k d).

Definition keys (d : dict) : list string := map fst d.

(** [{**a, **b}] *)
Definition dict_merge (a b : dict) : dict :=
  fold_left (fun acc kv => dict_set (fst kv) (snd kv) acc) b a.

(** Exceptions. [RestException] carries the JSON payload of the server's
    answer; every constructor is a subclass of Python's [Exception]. *)
Inductive exn : Type :=
| RestException (json : dict)
| MlflowExportImportException (message : string)
    (stages versions : list string) (http_status_code : Z)
| KeyError (key : string)
| TypeError (what : string)
| AttributeError (what : string)
| OtherException (what : string).

Definition is_RestException (e : exn) : bool :=
  match e with RestException _ => true | _ => false end.

Inductive result (A : Type) : Type :=
| Ok (a : A)
| Raise (e : exn).
Arguments Ok {A} a.
Arguments Raise {A} e.

Definition is_Ok {A} (r : result A) : bool :=
  match r with Ok _ => true | Raise _ => false end.

(** ** Code that may raise, over a state [S]

    The state is what the code leaves behind (a trace of effects, a file
    system); it survives an exception. *)
Definition M (S A : Type) : Type := S -> result A * S.

Definition ret {S A} (a : A) : M S A := fun s => (Ok a, s).

Definition bind {S A B} (m : M S A) (f : A -> M S B) : M S B :=
  fun s => match m s with
           | (Ok a, s') => f a s'
           | (Raise e, s') => (Raise e, s')
           end.

Definition raise {S A} (e : exn) : M S A := fun s => (Raise e, s).

Definition lift {S A} (r : result A) : M S A := fun s => (r, s).

(** [try: m  except Exception as e: h e] *)
Definition try_except {S A} (m : M S A) (h : exn -> M S A) : M S A :=
  fun s => match m s with
           | (Ok a, s') => (Ok a, s')
           | (Raise e, s') => h e s'
           end.

Declare Scope py_scope.
Delimit Scope py_scope with py.
Notation "x <- m ;; k" := (bind m (fun x => k))
  (at level 61, m at next level, right associativity) : py_scope.
Notation "' p <- m ;; k" := (bind m (fun x => match x with p => k end))
  (at level 61, p pattern, m at next level, right associativity) : py_scope.
Notation "m ;; k" := (bind m (fun _ => k))
  (at level 61, right associativity) : py_scope.
Open Scope py_scope.

(** [for x in l: s = body x s] *)
Fixpoint for_each {S A B} (l : list A) (body : A -> B -> M S B) (b : B)
  : M S B :=
  match l with
  | [] => ret b
  | x :: l' => b' <- body x b ;; for_each l' body b'
  end.

(** Lower-casing of the letters A to Z, every other byte kept. It agrees
    with [str.lower()] on ASCII text only, and is used only to run the
    sample environment; the program itself is modelled over the runtime's
    own [str.lower], a field of the environment. *)
Definition lower_ascii (c : ascii) : ascii :=
  let n := nat_of_ascii c in
  if (65 <=? n)%nat && (n <=? 90)%nat then ascii_of_nat (n + 32) else c.

Fixpoint lower (s : string) : string :=
  match s with
  | EmptyString => EmptyString
  | String c s' => String (lower_ascii c) (lower s')
  end.

(** [s.split(",")] *)
Fixpoint split_comma (s : string) : list string :=
  match s with
  | EmptyString => [EmptyString]
  | String c s' =>
      if Ascii.eqb c ","%char then EmptyString :: split_comma s'
      else match split_comma s' with
           | t :: ts => String c t :: ts
           | [] => [String c EmptyString]
           end
  end.

(** [x in l] for a list of strings. *)
Definition str_in (x : string) (l : list string) : bool :=
  existsb (String.eqb x) l.

Definition startswith (p s : string) : bool := String.prefix p s.

Fixpoint endswith_slash (s : string) : bool :=
  match s with
  | EmptyString => false
  | String c EmptyString => Ascii.eqb c "/"%char
  | String _ s' => endswith_slash s'
  end.

(** [os.path.join(a, b)] (posixpath). *)
Definition path_join (a b : string) : string :=
  if startswith "/" b then b
  else if (a =? "") || endswith_slash a then (a ++ b)%string
  else (a ++ "/" ++ b)%string.

(** ** Sorting: [list.sort(key=...)] on string keys.

    Python compares strings by code point; on the byte strings used here
    that is [String.leb]. The sort is stable: an element is placed before
    the first element already there whose key is not smaller, and the
    elements are inserted from the right. *)
Section Sort.
Context {A : Type}.

Fixpoint insert_by (x : string * A) (l : list (string * A))
  : list (string * A) :=
  match l with
  | [] => [x]
  | y :: l' =>
      if String.leb (fst x) (fst y) then x :: y :: l'
      else y :: insert_by x l'
  end.

Fixpoint sort_keyed (l : list (string * A)) : list (string * A) :=
  match l with
  | [] => []
  | x :: l' => insert_by x (sort_keyed l')
  end.

End Sort.

End Py.

(* ================================================================== *)
(** * model/export_model.py *)
(* ================================================================== *)

Module ExportModel.
Import Py.

(** ** Entities of the tracking server (mlflow) *)

(** [mlflow.entities.model_registry.ModelVersion], with the attributes
    the export reads and a few of the others. Identifiers are strings, as
    the REST API returns them and as [main] passes them in the version
    filter ([versions.split(",")]). *)
Record ModelVersion : Type := {
  name : string;
  version : string;
  creation_timestamp : pyval;
  last_updated_timestamp : pyval;
  current_stage : string;
  run_id : string;
  source : string;
  status : string
}.

(** [dict(vr)]: the version's attribute mapping, a fresh dict per call. *)
Definition dict_of_version (vr : ModelVersion) : dict :=
  [ ("creation_timestamp", creation_timestamp vr);
    ("current_stage", VStr (current_stage vr));
    ("last_updated_timestamp", last_updated_timestamp vr);
    ("name", VStr (name vr));
    ("run_id", VStr (run_id vr));
    ("source", VStr (source vr));
    ("status", VStr (status vr));
    ("version", VStr (version vr)) ].

(** [run.info] of [mlflow.entities.Run], the two attributes read here. *)
Record Run : Type := {
  artifact_uri : string;
  experiment_id : string
}.

Record Experiment : Type := {
  experiment_name : string
}.

(** [mlflow.entities.model_registry.model_version_stages._CANONICAL_MAPPING]:
    its keys, the lower-cased members of [ALL_STAGES]. *)
Definition _CANONICAL_MAPPING : list string :=
  ["none"; "staging"; "production"; "archived"].

(** ** Options *)

Record Options : Type := {
  stages : list string;
  versions : list string;
  export_latest_versions : bool;
  export_deleted_runs : bool;
  export_version_model : bool;
  export_permissions : bool;
  notebook_formats : option (list string)
}.

(** ** Effects *)

Inductive level : Type := INFO | WARNING | ERROR.

(** What a log call is given; f-strings are kept as their parts. *)
Inductive log_msg : Type :=
| MsgStage (stage : string)
| MsgFound (model_name : string) (found : nat) (which : string)
| MsgExportingVersion (j1 num_versions : nat) (msg : dict) (opath : string)
| MsgExported (exported found : nat) (which model_name : string)
| MsgDict (d : dict)
| MsgException (model_name : string) (e : exn).

(** One entry per effect the code performs, in program order. *)
Inductive event : Type :=
| Log (lv : level) (msg : log_msg)
| Traceback
| ListModelVersions (model_name : string) (latest : bool)
| ExportRun (rid opath : string) (deleted : bool)
    (formats : option (list string))
| GetRun (rid : string)
| GetExperiment (eid : string)
| ExportVersionModel (vr : ModelVersion) (output_dir : string)
| HttpGet (resource : string) (params : dict)
| GetModelPermissions (id : pyval)
| WriteExportFile (output_dir file : string) (model info_attr : dict).

Definition trace : Type := list event.

(** The collaborators outside this module: the tracking server behind the
    clients that [export_model] builds, the run exporter, the file writer.
    Each call either returns or raises; the server's state is not changed
    by an export, so the outcome of a call is a function of its arguments.
    The timestamp formatter [fmt_ts_millis] always returns. [str_lower] is
    [str.lower] of the Python runtime, with its Unicode case tables. *)
Record Env : Type := {
  list_model_versions : string -> bool -> result (list ModelVersion);
  export_run : string -> string -> bool -> option (list string)
               -> result unit;
  get_run : string -> result Run;
  get_experiment : string -> result Experiment;
  model_utils_export_version_model : ModelVersion -> string -> result pyval;
  is_importing_into_databricks : bool;
  http_get : string -> dict -> result dict;
  get_model_permissions : pyval -> result pyval;
  write_export_file : string -> string -> dict -> dict -> result unit;
  fmt_ts_millis : pyval -> pyval;
  str_lower : string -> string
}.

(** Code that may raise and that leaves a trace. *)
Definition M (A : Type) : Type := Py.M trace A.

(** An effect that cannot fail. *)
Definition emit (ev : event) : M unit := fun t => (Ok tt, t ++ [ev]).

(** A call to a collaborator: recorded, then its outcome. *)
Definition call {A} (ev : event) (r : result A) : M A :=
  fun t => (r, t ++ [ev]).

(** [enumerate(l)] *)
Definition enumerate {A} (l : list A) : list (nat * A) :=
  combine (seq 0 (length l)) l.

(** [d[k]] *)
Definition getitem (k : string) (d : dict) : M pyval :=
  match dict_get k d with
  | Some v => ret v
  | None => raise (KeyError k)
  end.

(** A value used as a dict ([.get], item assignment). *)
Definition as_dict (v : pyval) : M dict :=
  match v with
  | VDict d => ret d
  | _ => raise (AttributeError "get")
  end.

(** [e.json.get("error_code", None) == code] *)
Definition error_code_is (json : dict) (code : string) : bool :=
  match dict_get "error_code" json with
  | Some (VStr s) => s =? code
  | _ => false
  end.

(** ** The code *)

(** The [stages] argument of [export_model]: [None], a comma-joined string
    (from the command line) or a sequence of strings. *)
Inductive stages_param : Type :=
| StagesNone
| StagesStr (s : string)
| StagesSeq (l : list string).

(** [if stage not in _CANONICAL_MAPPING: _logger.warning(...)] *)
Definition warn_stage (stage : string) (_ : unit) : M unit :=
  if str_in stage _CANONICAL_MAPPING then ret tt
  else emit (Log WARNING (MsgStage stage)).

(** The part of [_normalize_stages] after the input is a sequence. *)
Definition lower_and_check (env : Env) (stages : list string)
  : M (list string) :=
  let stages := map (str_lower env) stages in
  for_each stages warn_stage tt ;;
  ret stages.

Definition _normalize_stages (env : Env) (stages : stages_param)
  : M (list string) :=
  match stages with
  | StagesNone => ret []
  | StagesStr s =>
      if s =? "" then ret [] else lower_and_check env (split_comma s)
  | StagesSeq l => lower_and_check env l
  end.

Definition _adjust_timestamp (env : Env) (dct : dict) (attr : string) : dict :=
  dict_set ("_" ++ attr)%string (fmt_ts_millis env (dict_get_none attr dct)) dct.

(** [_adjust_model] updates [model] and the dicts of [versions] in place;
    here it returns both. The list under ["versions"] is the list passed
    in, holding the updated dicts. *)
Definition _adjust_model (env : Env) (model : dict) (versions : list dict)
  : dict * list dict :=
  let model := _adjust_timestamp env model "creation_timestamp" in
  let model := _adjust_timestamp env model "last_updated_timestamp" in
  let '(tags, model) := dict_pop "tags" model in
  let model := if truthy tags then dict_set "tags" tags model else model in
  let versions :=
    map (fun vr =>
           let vr := _adjust_timestamp env vr "creation_timestamp" in
           _adjust_timestamp env vr "last_updated_timestamp") versions in
  let model := dict_set "versions" (VList (map VDict versions)) model in
  let model := dict_remove "latest_versions" model in
  (model, versions).

(** The [try] block of [_export_version] up to the append: export the
    run, fetch it again, and build the descriptor of the version. *)
Definition export_version_try (env : Env) (vr : ModelVersion)
    (output_dir opath : string) (opts : Options) : M dict :=
  call (ExportRun (run_id vr) opath (export_deleted_runs opts)
          (notebook_formats opts))
       (export_run env (run_id vr) opath (export_deleted_runs opts)
          (notebook_formats opts)) ;;
  run <- call (GetRun (run_id vr)) (get_run env (run_id vr)) ;;
  let vr_dct := dict_of_version vr in
  let vr_dct := dict_set "_run_artifact_uri" (VStr (artifact_uri run))
                  vr_dct in
  experiment <- call (GetExperiment (experiment_id run))
                     (get_experiment env (experiment_id run)) ;;
  let vr_dct := dict_set "_experiment_name"
                  (VStr (experiment_name experiment)) vr_dct in
  if export_version_model opts then
    uri <- call (ExportVersionModel vr output_dir)
             (model_utils_export_version_model env vr output_dir) ;;
    ret (dict_set "_download_uri" uri vr_dct)
  else ret vr_dct.

(** The [except RestException] block of [_export_version]: log the
    failure and give the record that is appended to [failed_versions]. *)
Definition export_version_except (vr : ModelVersion) (json : dict) : M dict :=
  let err_msg := [ ("model", VStr (name vr));
                   ("version", VStr (version vr));
                   ("run_id", VStr (run_id vr));
                   ("RestException", VDict json) ] in
  if error_code_is json "RESOURCE_DOES_NOT_EXIST" then
    let err_msg :=
      dict_merge [("message", VStr "Version run probably does not exist")]
        err_msg in
    emit (Log ERROR (MsgDict err_msg)) ;;
    ret err_msg
  else
    let err_msg :=
      dict_merge [("message", VStr "Version cannot be exported")] err_msg in
    emit (Log ERROR (MsgDict err_msg)) ;;
    emit Traceback ;;
    ret err_msg.

(** The two accumulators [output_versions] and [failed_versions] are
    lists appended to in place; the function returns them as updated.
    Only a [RestException] is handled here, any other exception leaves
    the function. *)
Definition _export_version (env : Env) (vr : ModelVersion)
    (output_dir : string) (output_versions failed_versions : list dict)
    (j num_versions : nat) (opts : Options) : M (list dict * list dict) :=
  let opath := path_join output_dir (run_id vr) in
  let msg := [ ("name", VStr (name vr)); ("version", VStr (version vr));
               ("stage", VStr (current_stage vr)) ] in
  emit (Log INFO (MsgExportingVersion (j + 1) num_versions msg opath)) ;;
  try_except
    ( vr_dct <- export_version_try env vr output_dir opath opts ;;
      ret (output_versions ++ [vr_dct], failed_versions) )
    (fun e =>
       match e with
       | RestException json =>
           err_msg <- export_version_except vr json ;;
           ret (output_versions, failed_versions ++ [err_msg])
       | _ => raise e
       end).

(** The key of [output_versions.sort(key=lambda x: x["version"])]. Every
    descriptor is made from [dict(vr)], whose ["version"] is a string. *)
Definition version_key (x : dict) : result string :=
  match dict_get "version" x with
  | Some (VStr s) => Ok s
  | Some _ => Raise (TypeError "version")
  | None => Raise (KeyError "version")
  end.

Fixpoint version_keys (l : list dict) : result (list string) :=
  match l with
  | [] => Ok []
  | x :: l' =>
      match version_key x with
      | Ok k => match version_keys l' with
                | Ok ks => Ok (k :: ks)
                | Raise e => Raise e
                end
      | Raise e => Raise e
      end
  end.

(** [l.sort(key=lambda x: x["version"], reverse=False)]: the keys are
    computed first, then the list is sorted on them. *)
Definition sort_by_version (l : list dict) : result (list dict) :=
  match version_keys l with
  | Ok ks => Ok (map snd (sort_keyed (combine ks l)))
  | Raise e => Raise e
  end.

(** The two [continue] guards of the loop of [_export_versions]. *)
Definition skipped_by_stage (env : Env) (opts : Options)
    (vr : ModelVersion) : bool :=
  (0 <? List.length (stages opts))%nat
  && negb (str_in (str_lower env (current_stage vr)) (stages opts)).

Definition skipped_by_version (opts : Options) (vr : ModelVersion) : bool :=
  (0 <? List.length (versions opts))%nat
  && negb (str_in (version vr) (versions opts)).

(** The body of the loop of [_export_versions]. *)
Definition export_versions_step (env : Env) (output_dir : string)
    (opts : Options) (num_versions : nat) (jvr : nat * ModelVersion)
    (acc : list dict * list dict) : M (list dict * list dict) :=
  let '(j, vr) := jvr in
  let '(output_versions, failed_versions) := acc in
  if skipped_by_stage env opts vr then
    ret (output_versions, failed_versions)
  else if skipped_by_version opts vr then
    ret (output_versions, failed_versions)
  else
    _export_version env vr output_dir output_versions failed_versions
      j num_versions opts.

Definition _export_versions (env : Env) (versions : list ModelVersion)
    (output_dir : string) (opts : Options) : M (list dict * list dict) :=
  '(output_versions, failed_versions) <-
    for_each (enumerate versions)
      (export_versions_step env output_dir opts (List.length versions))
      ([], []) ;;
  output_versions <- lift (sort_by_version output_versions) ;;
  ret (output_versions, failed_versions).

Definition which_versions (opts : Options) : string :=
  if export_latest_versions opts then "latest" else "all".

Definition info_attr_of (opts : Options) (versions failed_versions : list dict)
  : dict :=
  [ ("num_target_stages", VInt (Z.of_nat (List.length (stages opts))));
    ("num_target_versions",
       VInt (Z.of_nat (List.length (ExportModel.versions opts))));
    ("num_src_versions", VInt (Z.of_nat (List.length versions)));
    ("num_dst_versions", VInt (Z.of_nat (List.length versions)));
    ("failed_versions", VList (map VDict failed_versions));
    ("export_latest_versions", VBool (export_latest_versions opts));
    ("export_permissions", VBool (export_permissions opts)) ].

Definition _export_model (env : Env) (model_name output_dir : string)
    (opts : Options) : M unit :=
  ori_versions <- call (ListModelVersions model_name
                          (export_latest_versions opts))
                    (list_model_versions env model_name
                       (export_latest_versions opts)) ;;
  let msg := which_versions opts in
  emit (Log INFO (MsgFound model_name (List.length ori_versions) msg)) ;;
  '(versions, failed_versions) <-
    _export_versions env ori_versions output_dir opts ;;
  '(model, versions) <-
    (if is_importing_into_databricks env && export_permissions opts then
       let params := [("name", VStr model_name)] in
       model <- call (HttpGet "databricks/registered-models/get" params)
                  (http_get env "databricks/registered-models/get" params) ;;
       let '(model2, model) := dict_pop "registered_model_databricks" model in
       model2 <- as_dict model2 ;;
       let '(model2, versions) := _adjust_model env model2 versions in
       id <- getitem "id" model2 ;;
       permissions <- call (GetModelPermissions id)
                        (get_model_permissions env id) ;;
       let model2 := dict_set "permissions" permissions model2 in
       ret (dict_set "registered_model" (VDict model2) model, versions)
     else
       let params := [("name", VStr model_name)] in
       model <- call (HttpGet "registered-models/get" params)
                  (http_get env "registered-models/get" params) ;;
       registered_model <- getitem "registered_model" model ;;
       registered_model <- as_dict registered_model ;;
       let '(registered_model, versions) :=
         _adjust_model env registered_model versions in
       ret (dict_set "registered_model" (VDict registered_model) model,
            versions)) ;;
  let info_attr := info_attr_of opts versions failed_versions in
  call (WriteExportFile output_dir "model.json" model info_attr)
       (write_export_file env output_dir "model.json" model info_attr) ;;
  emit (Log INFO (MsgExported (List.length versions)
                    (List.length ori_versions) msg model_name)).

Definition export_model (env : Env) (model_name output_dir : string)
    (stages : stages_param) (versions : option (list string))
    (export_latest_versions export_version_model export_permissions
       export_deleted_runs : bool)
    (notebook_formats : option (list string)) : M (bool * string) :=
  stages <- _normalize_stages env stages ;;
  let versions := match versions with
                  | Some (v :: vs) => v :: vs
                  | _ => []
                  end in
  if (0 <? List.length stages)%nat && (0 <? List.length versions)%nat then
    raise (MlflowExportImportException
             "Both stages and versions cannot be set" stages versions 400)
  else
    let opts := Build_Options stages versions export_latest_versions
                  export_deleted_runs export_version_model
                  export_permissions notebook_formats in
    try_except
      ( _export_model env model_name output_dir opts ;;
        ret (true, model_name) )
      (fun e =>
         match e with
         | RestException json =>
             let err_msg := [ ("model", VStr model_name);
                              ("RestException", VDict json) ] in
             (if error_code_is json "RESOURCE_DOES_NOT_EXIST" then
                emit (Log ERROR (MsgDict
                  (dict_merge [("message", VStr "Model does not exist")]
                     err_msg)))
              else
                emit (Log ERROR (MsgDict
                  (dict_merge [("message", VStr "Model cannot be exported")]
                     err_msg))) ;;
                emit Traceback) ;;
             ret (false, model_name)
         | _ =>
             emit (Log ERROR (MsgException model_name e)) ;;
             emit Traceback ;;
             ret (false, model_name)
         end).

End ExportModel.

(* ================================================================== *)
(** * copy/copy_run.py *)
(* ================================================================== *)

Module CopyRun.
Import Py.

(** The local file system, as far as the copy sees it: the paths that
    exist. *)
Definition fs : Type := list string.

Definition exists_path (p : string) (s : fs) : bool := str_in p s.

(** [p] is [d] or lies under it. *)
Definition under (d p : string) : bool :=
  (p =? d) || String.prefix (d ++ "/")%string p.

Definition mkdir (d : string) (s : fs) : fs := d :: s.

(** [shutil.rmtree(d)] *)
Definition rmtree (d : string) (s : fs) : fs :=
  filter (fun p => negb (under d p)) s.

(** [mlflow.MlflowClient(tracking_uri, registry_uri)] *)
Record MlflowClient : Type := {
  tracking_uri : string;
  registry_uri : string
}.

(** The collaborators: the name [tempfile] picks for a new directory, the
    run exporter and the run importer. Exporter and importer see and
    change the file system as they like, and return or raise. *)
Record Env : Type := {
  mkdtemp : fs -> string;
  export_run : string -> string -> list string -> MlflowClient
               -> M fs unit;
  import_run : string -> string -> MlflowClient -> M fs (pyval * pyval)
}.

(** [with tempfile.TemporaryDirectory() as d: body d]: the directory is
    created on entry; on exit, normal or by an exception, it is removed
    with what is in it, and the outcome of the body is passed on. *)
Definition with_TemporaryDirectory {A} (env : Env) (body : string -> M fs A)
  : M fs A :=
  fun s =>
    let d := mkdtemp env s in
    let '(r, s') := body d (mkdir d s) in
    (r, rmtree d s').

Definition _copy (env : Env) (src_run_id dst_experiment_name : string)
    (src_client dst_client : MlflowClient) : M fs pyval :=
  with_TemporaryDirectory env (fun download_dir =>
    export_run env src_run_id download_dir ["SOURCE"] src_client ;;
    '(dst_run, _) <- import_run env download_dir dst_experiment_name
                       dst_client ;;
    ret dst_run).

Definition copy (env : Env) (src_run_id dst_experiment_name : string)
    (src_mlflow_uri dst_mlflow_uri : string) : M fs pyval :=
  _copy env src_run_id dst_experiment_name
    (Build_MlflowClient src_mlflow_uri src_mlflow_uri)
    (Build_MlflowClient dst_mlflow_uri dst_mlflow_uri).

End CopyRun.

(* ================================================================== *)
(** * Notions used to state the properties *)
(* ================================================================== *)

Import Py ExportModel.

(** The tokens of a stage filter as given by the caller. *)
Definition tokens_of (stages : stages_param) : list string :=
  match stages with
  | StagesNone => []
  | StagesStr s => if s =? "" then [] else split_comma s
  | StagesSeq l => l
  end.

(** The warnings for the tokens outside the stage vocabulary, in order. *)
Definition stage_warnings (stages : list string) : trace :=
  map (fun s => Log WARNING (MsgStage s))
      (filter (fun s => negb (str_in s _CANONICAL_MAPPING)) stages).

(** The version filter as given by the caller: absent means empty. *)
Definition versions_of (versions : option (list string)) : list string :=
  match versions with Some l => l | None => [] end.

(** A version passes both filters. *)
Definition selected (env : Env) (opts : Options) (vr : ModelVersion)
  : bool :=
  negb (skipped_by_stage env opts vr) && negb (skipped_by_version opts vr).

(** The outcome of exporting one version: its descriptor, or the exception
    raised by the run exporter or by the server. *)
Definition attempt (env : Env) (output_dir : string) (opts : Options)
    (vr : ModelVersion) : result dict :=
  fst (export_version_try env vr output_dir
         (path_join output_dir (run_id vr)) opts []).

Definition exported (env : Env) (output_dir : string) (opts : Options)
    (vr : ModelVersion) : bool :=
  is_Ok (attempt env output_dir opts vr).

(** The export of the version raised a [RestException]. *)
Definition failed (env : Env) (output_dir : string) (opts : Options)
    (vr : ModelVersion) : bool :=
  match attempt env output_dir opts vr with
  | Raise (RestException _) => true
  | _ => false
  end.

(** The export of the version raised another exception. *)
Definition crashed (env : Env) (output_dir : string) (opts : Options)
    (vr : ModelVersion) : bool :=
  match attempt env output_dir opts vr with
  | Raise e => negb (is_RestException e)
  | Ok _ => false
  end.

(** The exception of the first version of the list that crashes. *)
Fixpoint first_crash (env : Env) (output_dir : string) (opts : Options)
    (vs : list ModelVersion) : option exn :=
  match vs with
  | [] => None
  | vr :: vs' =>
      match attempt env output_dir opts vr with
      | Raise (RestException _) | Ok _ => first_crash env output_dir opts vs'
      | Raise e => Some e
      end
  end.

(** The descriptors of the versions of the list that are exported. *)
Definition descriptors (env : Env) (output_dir : string) (opts : Options)
    (vs : list ModelVersion) : list dict :=
  flat_map (fun vr => match attempt env output_dir opts vr with
                      | Ok d => [d]
                      | Raise _ => []
                      end) vs.

(** The classification of a failure by the error code of its payload. *)
Definition failure_message (json : dict) : string :=
  if error_code_is json "RESOURCE_DOES_NOT_EXIST"
  then "Version run probably does not exist"
  else "Version cannot be exported".

(** The record of a failed version. *)
Definition failure_record (vr : ModelVersion) (json : dict) : dict :=
  [ ("message", VStr (failure_message json));
    ("model", VStr (name vr));
    ("version", VStr (version vr));
    ("run_id", VStr (run_id vr));
    ("RestException", VDict json) ].

Definition failure_records (env : Env) (output_dir : string) (opts : Options)
    (vs : list ModelVersion) : list dict :=
  flat_map (fun vr => match attempt env output_dir opts vr with
                      | Raise (RestException json) => [failure_record vr json]
                      | _ => []
                      end) vs.

(** A version is listed among the descriptors, or among the failure
    records, under its model name and version identifier. *)
Definition in_exported (vr : ModelVersion) (output_versions : list dict)
  : Prop :=
  exists d, In d output_versions
            /\ dict_get "name" d = Some (VStr (name vr))
            /\ dict_get "version" d = Some (VStr (version vr)).

Definition in_failed (vr : ModelVersion) (failed_versions : list dict)
  : Prop :=
  exists r, In r failed_versions
            /\ dict_get "model" r = Some (VStr (name vr))
            /\ dict_get "version" r = Some (VStr (version vr)).

(** The number a version identifier denotes, when it is a decimal one. *)
Fixpoint decimal (acc : N) (s : string) : option N :=
  match s with
  | EmptyString => Some acc
  | String c s' =>
      let n := N_of_ascii c in
      if (48 <=? n)%N && (n <=? 57)%N
      then decimal (acc * 10 + (n - 48))%N s'
      else None
  end.

Definition version_number (s : string) : option N :=
  match s with
  | EmptyString => None
  | _ => decimal 0%N s
  end.

(** The calls made while one version is exported. *)
Definition attempt_events (env : Env) (output_dir : string) (opts : Options)
    (vr : ModelVersion) : trace :=
  snd (export_version_try env vr output_dir
         (path_join output_dir (run_id vr)) opts []).

(** What is logged when a failure is recorded. *)
Definition failure_events (vr : ModelVersion) (json : dict) : trace :=
  Log ERROR (MsgDict (failure_record vr json))
  :: (if error_code_is json "RESOURCE_DOES_NOT_EXIST" then []
      else [Traceback]).

(** The effects of [_export_version] on the [j]-th version of [n]. *)
Definition version_events (env : Env) (output_dir : string) (opts : Options)
    (n : nat) (j : nat) (vr : ModelVersion) : trace :=
  Log INFO (MsgExportingVersion (j + 1) n
              [ ("name", VStr (name vr)); ("version", VStr (version vr));
                ("stage", VStr (current_stage vr)) ]
              (path_join output_dir (run_id vr)))
  :: attempt_events env output_dir opts vr
  ++ match attempt env output_dir opts vr with
     | Raise (RestException json) => failure_events vr json
     | _ => []
     end.

(** The effects of the loop of [_export_versions]: those of the selected
    versions, up to the first one that crashes. *)
Fixpoint versions_events (env : Env) (output_dir : string) (opts : Options)
    (n : nat) (jvs : list (nat * ModelVersion)) : trace :=
  match jvs with
  | [] => []
  | (j, vr) :: jvs' =>
      if selected env opts vr then
        version_events env output_dir opts n j vr
        ++ (if crashed env output_dir opts vr then []
            else versions_events env output_dir opts n jvs')
      else versions_events env output_dir opts n jvs'
  end.

(** The order of two keyed elements under string comparison. *)
Definition key_le {A} (x y : string * A) : Prop :=
  String.leb (fst x) (fst y) = true.

(** An effect other than the writing of the export file. *)
Definition not_a_write (ev : event) : Prop :=
  match ev with WriteExportFile _ _ _ _ => False | _ => True end.

(** If the effect is the writing of the export file, its summary has [n]
    in both count fields. *)
Definition counts_are (n : nat) (ev : event) : Prop :=
  match ev with
  | WriteExportFile _ _ _ info_attr =>
      dict_get "num_src_versions" info_attr = Some (VInt (Z.of_nat n))
      /\ dict_get "num_dst_versions" info_attr = Some (VInt (Z.of_nat n))
  | _ => True
  end.

(** The export files written, each with its model and its summary. *)
Definition writes (t : trace) : list (dict * dict) :=
  flat_map (fun ev => match ev with
                      | WriteExportFile _ _ model info_attr =>
                          [(model, info_attr)]
                      | _ => []
                      end) t.

(** The keys [_adjust_model] writes or removes. *)
Definition assembled_keys : list string :=
  [ "_creation_timestamp"; "_last_updated_timestamp"; "tags"; "versions";
    "latest_versions" ].

(** A field of the model that [_adjust_model] has no business with. *)
Definition other_field (kv : string * pyval) : bool :=
  negb (str_in (fst kv) assembled_keys).

(** [d'] is [d] with the two formatted timestamps added next to the raw
    ones, and nothing else changed. *)
Definition timestamps_added (env : Env) (d d' : dict) : Prop :=
  dict_get "_creation_timestamp" d'
  = Some (fmt_ts_millis env (dict_get_none "creation_timestamp" d))
  /\ dict_get "_last_updated_timestamp" d'
     = Some (fmt_ts_millis env (dict_get_none "last_updated_timestamp" d))
  /\ forall k, k <> "_creation_timestamp" -> k <> "_last_updated_timestamp"
               -> dict_get k d' = dict_get k d.

(** ** A small registry to run the code on *)

Module Demo.

Definition mv (model id stage rid : string) : ModelVersion :=
  {| name := model; version := id;
     creation_timestamp := VInt 1700000000000;
     last_updated_timestamp := VInt 1700000001000;
     current_stage := stage; run_id := rid;
     source := ("runs:/" ++ rid ++ "/model")%string; status := "READY" |}.

Definition not_found : dict :=
  [ ("error_code", VStr "RESOURCE_DOES_NOT_EXIST");
    ("message", VStr "Run not found") ].

(** Model [m1] has versions 3, 1, 2 (the run of version 2 is gone), model
    [m10] has versions 9 and 10, the run exporter crashes on the first of
    the two versions of model [m0], and model [ghost] does not exist. *)
Definition env : Env :=
  {| list_model_versions := fun model _ =>
       if model =? "m1" then
         Ok [ mv "m1" "3" "Production" "r3"; mv "m1" "1" "Archived" "r1";
              mv "m1" "2" "Staging" "r2" ]
       else if model =? "m10" then
         Ok [ mv "m10" "9" "None" "r9"; mv "m10" "10" "None" "r10" ]
       else if model =? "m0" then
         Ok [ mv "m0" "1" "None" "r0"; mv "m0" "2" "None" "r1" ]
       else Raise (RestException not_found);
     export_run := fun rid _ _ _ =>
       if rid =? "r0" then Raise (OtherException "OSError") else Ok tt;
     get_run := fun rid =>
       if rid =? "r2" then Raise (RestException not_found)
       else Ok {| artifact_uri := ("s3://bucket/" ++ rid ++ "/artifacts")%string;
                  experiment_id := "7" |};
     get_experiment := fun _ => Ok {| experiment_name := "exp" |};
     model_utils_export_version_model := fun vr _ => Ok (VStr (source vr));
     is_importing_into_databricks := false;
     http_get := fun _ params =>
       Ok [ ("registered_model",
             VDict [ ("name", dict_get_none "name" params);
                     ("creation_timestamp", VInt 1690000000000);
                     ("last_updated_timestamp", VInt 1700000001000);
                     ("tags", VList [VDict [("key", VStr "team");
                                            ("value", VStr "ml")]]);
                     ("latest_versions", VList []);
                     ("description", VStr "demo") ]) ];
     get_model_permissions := fun _ => Ok (VDict []);
     write_export_file := fun _ _ _ _ => Ok tt;
     fmt_ts_millis := fun v =>
       match v with
       | VInt _ => VStr "2023-11-14 22:13:20"
       | _ => VNone
       end;
     str_lower := lower |}.

Definition opts_all : Options :=
  {| stages := []; versions := [];
     export_latest_versions := false; export_deleted_runs := false;
     export_version_model := false; export_permissions := false;
     notebook_formats := None |}.

Definition opts_production : Options :=
  {| stages := ["production"]; versions := [];
     export_latest_versions := false; export_deleted_runs := false;
     export_version_model := false; export_permissions := false;
     notebook_formats := None |}.

Definition versions_m1 : list ModelVersion :=
  [ mv "m1" "3" "Production" "r3"; mv "m1" "1" "Archived" "r1";
    mv "m1" "2" "Staging" "r2" ].

Definition versions_m10 : list ModelVersion :=
  [ mv "m10" "9" "None" "r9"; mv "m10" "10" "None" "r10" ].

Definition versions_m0 : list ModelVersion :=
  [ mv "m0" "1" "None" "r0"; mv "m0" "2" "None" "r1" ].

(** The summary written by the export of all the versions of [m1]. *)
Definition info_m1 : dict :=
  Eval vm_compute in
    snd (hd ([], []) (writes (snd (_export_model env "m1" "out" opts_all
                                     [])))).

Definition model_m1 : dict :=
  Eval vm_compute in
    fst (hd ([], []) (writes (snd (_export_model env "m1" "out" opts_all
                                     [])))).

(** A registered model whose tag list is empty. *)
Definition untagged_model : dict :=
  [ ("name", VStr "m"); ("tags", VList []); ("description", VStr "d") ].

Definition tagged_model : dict :=
  [ ("name", VStr "m"); ("tags", VList [VStr "t"]);
    ("latest_versions", VList []); ("description", VStr "d") ].

(** The copy of a run on a machine where the exporter writes a file into
    the staging directory and the importer fails. *)
Definition copy_env : CopyRun.Env :=
  {| CopyRun.mkdtemp := fun _ => "/tmp/tmpabcd";
     CopyRun.export_run := fun _ dir _ _ s =>
       (Ok tt, (dir ++ "/run.json")%string :: s);
     CopyRun.import_run := fun _ _ _ s =>
       (Raise (OtherException "import failed"), s) |}.

End Demo.

(* ================================================================== *)
(** * Further notions: the effects of the export, seen from outside *)
(* ================================================================== *)

(** The call of the run exporter that [_export_version] makes for a
    version. *)
Definition export_run_event (output_dir : string) (opts : Options)
    (vr : ModelVersion) : event :=
  ExportRun (run_id vr) (path_join output_dir (run_id vr))
    (export_deleted_runs opts) (notebook_formats opts).

Definition is_ExportRun (ev : event) : bool :=
  match ev with ExportRun _ _ _ _ => true | _ => false end.

(** The progress line of [_export_version]. *)
Definition is_progress (ev : event) : bool :=
  match ev with
  | Log INFO (MsgExportingVersion _ _ _ _) => true
  | _ => false
  end.

Definition progress_event (output_dir : string) (n : nat)
    (jvr : nat * ModelVersion) : event :=
  Log INFO (MsgExportingVersion (fst jvr + 1) n
              [ ("name", VStr (name (snd jvr)));
                ("version", VStr (version (snd jvr)));
                ("stage", VStr (current_stage (snd jvr))) ]
              (path_join output_dir (run_id (snd jvr)))).

(** The files written: directory and file name. *)
Definition write_targets (t : trace) : list (string * string) :=
  flat_map (fun ev => match ev with
                      | WriteExportFile dir file _ _ => [(dir, file)]
                      | _ => []
                      end) t.

(** ** More of the small registry *)

Module Sample.

Definition v3 : ModelVersion := Demo.mv "m1" "3" "Production" "r3".

(** The descriptor of version 3 of [m1]. *)
Definition descriptor_v3 : dict :=
  Eval vm_compute in
    match attempt Demo.env "out" Demo.opts_all v3 with
    | Ok d => d
    | Raise _ => []
    end.

Definition opts_cached : Options :=
  {| stages := []; versions := ["1"; "3"];
     export_latest_versions := false; export_deleted_runs := true;
     export_version_model := true; export_permissions := false;
     notebook_formats := Some ["SOURCE"] |}.

End Sample.

(** ** The outcomes of [_export_model] *)

(** The resource the model's metadata is fetched from. *)
Definition metadata_endpoint (env : Env) (opts : Options) : string :=
  if is_importing_into_databricks env && export_permissions opts
  then "databricks/registered-models/get"
  else "registered-models/get".

(** From the response [resp] of the metadata fetch and the descriptors
    [outs]: the calls made, the document to write and the version list as
    updated, in each of the two modes. *)
Inductive assembled (env : Env) (opts : Options) (resp : dict)
    (outs : list dict) : trace -> dict -> list dict -> Prop :=
| AssembledPlain (rm : dict) :
    is_importing_into_databricks env && export_permissions opts = false ->
    dict_get "registered_model" resp = Some (VDict rm) ->
    assembled env opts resp outs []
      (dict_set "registered_model"
         (VDict (fst (_adjust_model env rm outs))) resp)
      (snd (_adjust_model env rm outs))
| AssembledPermissions (rm : dict) (id permissions : pyval) :
    is_importing_into_databricks env && export_permissions opts = true ->
    dict_get "registered_model_databricks" resp = Some (VDict rm) ->
    dict_get "id" (fst (_adjust_model env rm outs)) = Some id ->
    get_model_permissions env id = Ok permissions ->
    assembled env opts resp outs [GetModelPermissions id]
      (dict_set "registered_model"
         (VDict (dict_set "permissions" permissions
                   (fst (_adjust_model env rm outs))))
         (dict_remove "registered_model_databricks" resp))
      (snd (_adjust_model env rm outs)).

(** What [_export_model] does after the versions are exported, with
    [found] versions listed, descriptors [outs] and failure records
    [fails]: its result and its effects. *)
Inductive tail_outcome (env : Env) (model_name output_dir : string)
    (opts : Options) (found : nat) (outs fails : list dict)
  : result unit -> trace -> Prop :=
| FetchRaises (e : exn) :
    http_get env (metadata_endpoint env opts) [("name", VStr model_name)]
    = Raise e ->
    tail_outcome env model_name output_dir opts found outs fails
      (Raise e)
      [HttpGet (metadata_endpoint env opts) [("name", VStr model_name)]]
| ResponseMalformed (resp : dict) (e : exn) :
    http_get env (metadata_endpoint env opts) [("name", VStr model_name)]
    = Ok resp ->
    e = KeyError "registered_model" \/ e = AttributeError "get"
    \/ e = KeyError "id" ->
    tail_outcome env model_name output_dir opts found outs fails
      (Raise e)
      [HttpGet (metadata_endpoint env opts) [("name", VStr model_name)]]
| PermissionsRaise (resp : dict) (id : pyval) (e : exn) :
    is_importing_into_databricks env && export_permissions opts = true ->
    http_get env (metadata_endpoint env opts) [("name", VStr model_name)]
    = Ok resp ->
    get_model_permissions env id = Raise e ->
    tail_outcome env model_name output_dir opts found outs fails
      (Raise e)
      [HttpGet (metadata_endpoint env opts) [("name", VStr model_name)];
       GetModelPermissions id]
| WriteRaises (resp : dict) (mid : trace) (doc : dict)
    (versions : list dict) (e : exn) :
    http_get env (metadata_endpoint env opts) [("name", VStr model_name)]
    = Ok resp ->
    assembled env opts resp outs mid doc versions ->
    write_export_file env output_dir "model.json" doc
      (info_attr_of opts versions fails) = Raise e ->
    tail_outcome env model_name output_dir opts found outs fails
      (Raise e)
      (HttpGet (metadata_endpoint env opts) [("name", VStr model_name)]
       :: mid
       ++ [WriteExportFile output_dir "model.json" doc
             (info_attr_of opts versions fails)])
| Written (resp : dict) (mid : trace) (doc : dict) (versions : list dict) :
    http_get env (metadata_endpoint env opts) [("name", VStr model_name)]
    = Ok resp ->
    assembled env opts resp outs mid doc versions ->
    write_export_file env output_dir "model.json" doc
      (info_attr_of opts versions fails) = Ok tt ->
    tail_outcome env model_name output_dir opts found outs fails
      (Ok tt)
      (HttpGet (metadata_endpoint env opts) [("name", VStr model_name)]
       :: mid
       ++ [WriteExportFile output_dir "model.json" doc
             (info_attr_of opts versions fails);
           Log INFO (MsgExported (List.length versions) found
                       (which_versions opts) model_name)]).

(** The result and the effects of [_export_model]. *)
Inductive export_outcome (env : Env) (model_name output_dir : string)
    (opts : Options) : result unit -> trace -> Prop :=
| ListingRaises (e : exn) :
    list_model_versions env model_name (export_latest_versions opts)
    = Raise e ->
    export_outcome env model_name output_dir opts (Raise e)
      [ListModelVersions model_name (export_latest_versions opts)]
| VersionCrashes (ori : list ModelVersion) (e : exn) :
    list_model_versions env model_name (export_latest_versions opts)
    = Ok ori ->
    first_crash env output_dir opts (filter (selected env opts) ori) = Some e ->
    export_outcome env model_name output_dir opts (Raise e)
      (ListModelVersions model_name (export_latest_versions opts)
       :: Log INFO (MsgFound model_name (List.length ori)
                      (which_versions opts))
       :: versions_events env output_dir opts (List.length ori)
            (enumerate ori))
| VersionsDone (ori : list ModelVersion) (outs : list dict)
    (r : result unit) (evs : trace) :
    list_model_versions env model_name (export_latest_versions opts)
    = Ok ori ->
    first_crash env output_dir opts (filter (selected env opts) ori) = None ->
    sort_by_version
      (descriptors env output_dir opts (filter (selected env opts) ori))
    = Ok outs ->
    tail_outcome env model_name output_dir opts (List.length ori) outs
      (failure_records env output_dir opts (filter (selected env opts) ori))
      r evs ->
    export_outcome env model_name output_dir opts r
      (ListModelVersions model_name (export_latest_versions opts)
       :: Log INFO (MsgFound model_name (List.length ori)
                      (which_versions opts))
       :: versions_events env output_dir opts (List.length ori)
            (enumerate ori)
       ++ evs).

Definition is_write (ev : event) : bool :=
  match ev with WriteExportFile _ _ _ _ => true | _ => false end.

(** The effects the export of the versions can have: log lines,
    tracebacks, and the calls of [_export_version]. *)
Definition of_version_export (ev : event) : Prop :=
  match ev with
  | Log _ _ | Traceback | ExportRun _ _ _ _ | GetRun _ | GetExperiment _
  | ExportVersionModel _ _ => True
  | _ => False
  end.

(** A fetch of the model's metadata goes to the endpoint of the mode, with
    the model name as only parameter, and the permissions are fetched in
    the permission mode only. *)
Definition metadata_call_ok (env : Env) (opts : Options)
    (model_name : string) (ev : event) : Prop :=
  match ev with
  | HttpGet resource params =>
      resource = metadata_endpoint env opts
      /\ params = [("name", VStr model_name)]
  | GetModelPermissions _ =>
      is_importing_into_databricks env && export_permissions opts = true
  | _ => True
  end.

(** The order of two descriptors by their version identifiers, compared
    as strings and compared as numbers. *)
Definition version_string_le (d1 d2 : dict) : Prop :=
  exists k1 k2, version_key d1 = Ok k1 /\ version_key d2 = Ok k2
                /\ String.leb k1 k2 = true.

Definition version_number_le (d1 d2 : dict) : Prop :=
  exists k1 k2 n1 n2,
    version_key d1 = Ok k1 /\ version_key d2 = Ok k2
    /\ version_number k1 = Some n1 /\ version_number k2 = Some n2
    /\ (n1 <= n2)%N.

Module Sample2.

(** The two lists that the export of all the versions of [m1] gives. *)
Definition lists_m1 : list dict * list dict :=
  Eval vm_compute in
    match fst (_export_versions Demo.env Demo.versions_m1 "out"
                 Demo.opts_all []) with
    | Ok x => x
    | Raise _ => ([], [])
    end.

End Sample2.

(* ================================================================== *)
(** * The command lines *)
(* ================================================================== *)

(** ** [main] of model/export_model.py *)

Module ExportModelCli.

(** What the command leaves behind: its own log lines, then the effects
    of the export. *)
Inductive cli_event : Type :=
| OptionsHeader
| OptionLine (k : string) (v : pyval)
| Exported (ev : event).

Definition opt_str (o : option string) : pyval :=
  match o with Some s => VStr s | None => VNone end.

Definition opt_list (o : option (list string)) : pyval :=
  match o with Some l => VList (map VStr l) | None => VNone end.

Definition info (ev : cli_event) : Py.M (list cli_event) unit :=
  fun t => (Ok tt, t ++ [ev]).

(** A call of the export from the command: its effects come after those
    of the command so far. *)
Definition run_export {A} (m : ExportModel.M A) : Py.M (list cli_event) A :=
  fun t => let '(r, t') := m [] in (r, t ++ map Exported t').

(** An option of the command is given when it is a non-empty string. *)
Definition given (o : option string) : bool :=
  match o with Some s => negb (s =? "") | None => false end.

Definition main (env : Env) (model output_dir : string)
    (stages versions : option string)
    (export_latest_versions export_deleted_runs export_version_model
       export_permissions : bool)
    (notebook_formats : option (list string))
  : Py.M (list cli_event) unit :=
  info OptionsHeader ;;
  for_each
    [ ("model", VStr model); ("output_dir", VStr output_dir);
      ("stages", opt_str stages); ("versions", opt_str versions);
      ("export_latest_versions", VBool export_latest_versions);
      ("export_deleted_runs", VBool export_deleted_runs);
      ("export_version_model", VBool export_version_model);
      ("export_permissions", VBool export_permissions);
      ("notebook_formats", opt_list notebook_formats) ]
    (fun kv _ => info (OptionLine (fst kv) (snd kv))) tt ;;
  let versions := if given versions
                  then match versions with
                       | Some s => split_comma s
                       | None => []
                       end
                  else [] in
  _ <- run_export
         (export_model env model output_dir
            (match stages with Some s => StagesStr s | None => StagesNone end)
            (Some versions) export_latest_versions export_version_model
            export_permissions export_deleted_runs notebook_formats) ;;
  ret tt.

End ExportModelCli.

(** ** [main] of copy/copy_run.py *)

Module CopyRunCli.
Import CopyRun.

(** The lines printed, and the file system. *)
Definition world : Type := (list string * fs)%type.

Definition print (line : string) : Py.M world unit :=
  fun w => (Ok tt, (fst w ++ [line], snd w)).

(** Code that works on the file system alone. *)
Definition on_fs {A} (m : Py.M fs A) : Py.M world A :=
  fun w => let '(r, s') := m (snd w) in (r, (fst w, s')).

Definition main (env : Env)
    (run_id experiment_name src_mlflow_uri dst_mlflow_uri : string)
  : Py.M world unit :=
  print "Options:" ;;
  for_each
    [ ("run_id", run_id); ("experiment_name", experiment_name);
      ("src_mlflow_uri", src_mlflow_uri);
      ("dst_mlflow_uri", dst_mlflow_uri) ]
    (fun kv _ => print ("  " ++ fst kv ++ ": " ++ snd kv)%string) tt ;;
  _ <- on_fs (copy env run_id experiment_name src_mlflow_uri
                dst_mlflow_uri) ;;
  ret tt.

End CopyRunCli.

(** ** The options, as the collaborators see them *)

(** A call gets the options of the export: the listing gets the model
    name and the latest-versions flag; a run export the directory
    [output_dir]/[run_id], the deleted-runs flag and the notebook formats;
    the cached model is exported, and the permissions are fetched, only
    under their flags; the file written is [model.json] in [output_dir],
    and its summary repeats the two flags it has. *)
Definition option_forwarded (model_name output_dir : string)
    (latest version_model permissions deleted : bool)
    (formats : option (list string)) (ev : event) : Prop :=
  match ev with
  | ListModelVersions n l => n = model_name /\ l = latest
  | ExportRun rid opath d f =>
      opath = path_join output_dir rid /\ d = deleted /\ f = formats
  | ExportVersionModel _ dir => dir = output_dir /\ version_model = true
  | GetModelPermissions _ => permissions = true
  | WriteExportFile dir file _ info_attr =>
      dir = output_dir /\ file = "model.json"
      /\ dict_get "export_latest_versions" info_attr = Some (VBool latest)
      /\ dict_get "export_permissions" info_attr = Some (VBool permissions)
  | _ => True
  end.

Definition options_forwarded (model_name output_dir : string)
    (opts : Options) : event -> Prop :=
  option_forwarded model_name output_dir (export_latest_versions opts)
    (export_version_model opts) (export_permissions opts)
    (export_deleted_runs opts) (notebook_formats opts).

(** ** Comma-separated text *)

(** The string holds a comma. *)
Definition has_comma (t : string) : bool :=
  existsb (Ascii.eqb ",") (list_ascii_of_string t).

Definition comma_free (t : string) : Prop := has_comma t = false.

Module Sample3.

(** A listing that names version 1 of [m1] twice, with two stages. *)
Definition v1_production : ModelVersion :=
  Demo.mv "m1" "1" "Production" "r1".

Definition v1_archived : ModelVersion := Demo.mv "m1" "1" "Archived" "r1".

Definition versions_twice : list ModelVersion :=
  [v1_production; v1_archived].

End Sample3.

(* ================================================================== *)
(** * Properties *)
(* ================================================================== *)

(** ** The code on the small registry *)

Example lower_Production : lower "Production" = "production".
Proof. reflexivity. Qed.

Example split_comma_stages :
  split_comma "Production,Staging" = ["Production"; "Staging"]
  /\ split_comma "a,,b" = ["a"; ""; "b"]
  /\ split_comma "" = [""].
Proof. repeat split. Qed.

Example path_join_run :
  path_join "out" "r1" = "out/r1" /\ path_join "out/" "r1" = "out/r1"
  /\ path_join "" "r1" = "r1" /\ path_join "out" "/abs" = "/abs".
Proof. repeat split. Qed.

(** The run of version 2 of [m1] is gone: versions 1 and 3 are exported,
    in this order, version 2 is recorded as failed, and the export of the
    model succeeds. *)
Example export_model_m1 :
  fst (export_model Demo.env "m1" "out" StagesNone None false false false
         false None []) = Ok (true, "m1")
  /\ map (fun mi => dict_get "failed_versions" (snd mi))
         (writes (snd (export_model Demo.env "m1" "out" StagesNone None
                         false false false false None [])))
     = [Some (VList [VDict (failure_record (Demo.mv "m1" "2" "Staging" "r2")
                              Demo.not_found)])]
  /\ exists outs fails,
       fst (_export_versions Demo.env Demo.versions_m1 "out" Demo.opts_all
              []) = Ok (outs, fails)
       /\ map (dict_get "version") outs
          = [Some (VStr "1"); Some (VStr "3")]
       /\ map (dict_get "version") fails = [Some (VStr "2")].
Proof.
  split; [reflexivity|]. split; [reflexivity|].
  do 2 eexists. split; [reflexivity|]. split; reflexivity.
Qed.

(** A model that does not exist: the error of the listing is logged and
    the export gives [False]. *)
Example export_model_ghost :
  fst (export_model Demo.env "ghost" "out" StagesNone None false false
         false false None []) = Ok (false, "ghost").
Proof. reflexivity. Qed.

(** ** Dicts *)

Lemma dict_get_set_same (k : string) (v : pyval) (d : dict) :
  dict_get k (dict_set k v d) = Some v.
Proof.
  induction d as [|[k' v'] d IH]; simpl.
  - now rewrite String.eqb_refl.
  - destruct (k =? k') eqn:E; simpl; rewrite E; auto.
Qed.

Lemma dict_get_set_other (k k' : string) (v : pyval) (d : dict) :
  k <> k' -> dict_get k (dict_set k' v d) = dict_get k d.
Proof.
  intros Hne. induction d as [|[k0 v0] d IH]; simpl.
  - apply String.eqb_neq in Hne. now rewrite Hne.
  - destruct (k' =? k0) eqn:E; simpl.
    + apply String.eqb_eq in E. subst k0.
      apply String.eqb_neq in Hne. now rewrite Hne.
    + now rewrite IH.
Qed.

Lemma dict_get_remove_same (k : string) (d : dict) :
  dict_get k (dict_remove k d) = None.
Proof.
  induction d as [|[k' v'] d IH]; simpl; auto.
  destruct (k =? k') eqn:E; simpl; auto. now rewrite E.
Qed.

Lemma dict_get_remove_other (k k' : string) (d : dict) :
  k <> k' -> dict_get k (dict_remove k' d) = dict_get k d.
Proof.
  intros Hne. induction d as [|[k0 v0] d IH]; simpl; auto.
  destruct (k' =? k0) eqn:E; simpl.
  - apply String.eqb_eq in E. subst k0.
    apply String.eqb_neq in Hne. now rewrite Hne.
  - now rewrite IH.
Qed.

Lemma dict_get_none_set_other (k k' : string) (v : pyval) (d : dict) :
  k <> k' -> dict_get_none k (dict_set k' v d) = dict_get_none k d.
Proof. intros; unfold dict_get_none; now rewrite dict_get_set_other. Qed.

Lemma dict_get_In (k : string) (d : dict) :
  dict_get k d = None <-> ~ In k (keys d).
Proof.
  induction d as [|[k' v'] d IH]; simpl.
  - tauto.
  - destruct (k =? k') eqn:E.
    + apply String.eqb_eq in E. subst. split; [discriminate | tauto].
    + apply String.eqb_neq in E. rewrite IH. split.
      * intros H [H1 | H1]; [now apply E | tauto].
      * tauto.
Qed.

(** Setting a key that is absent appends it. *)
Lemma dict_set_absent (k : string) (v : pyval) (d : dict) :
  dict_get k d = None -> dict_set k v d = d ++ [(k, v)].
Proof.
  induction d as [|[k' v'] d IH]; simpl; auto.
  destruct (k =? k'); [discriminate|]. intros H. now rewrite IH.
Qed.

(** Setting a key that is present does not touch what follows it. *)
Lemma dict_set_present_app (k : string) (v : pyval) (d d' : dict) :
  dict_get k d <> None -> dict_set k v (d ++ d') = dict_set k v d ++ d'.
Proof.
  induction d as [|[k' v'] d IH]; simpl; [congruence|].
  destruct (k =? k'); auto. intros H. now rewrite IH.
Qed.

Lemma dict_remove_app (k : string) (d d' : dict) :
  dict_remove k (d ++ d') = dict_remove k d ++ dict_remove k d'.
Proof. unfold dict_remove. apply filter_app. Qed.

(** The fields selected by a test on keys keep their values and their
    order when a key outside the test is set or removed. *)
Lemma filter_dict_set (p : string -> bool) (k : string) (v : pyval) (d : dict) :
  p k = false ->
  filter (fun kv => p (fst kv)) (dict_set k v d)
  = filter (fun kv => p (fst kv)) d.
Proof.
  intros Hp. induction d as [|[k' v'] d IH]; simpl.
  - now rewrite Hp.
  - destruct (k =? k') eqn:E; simpl.
    + apply String.eqb_eq in E. subst k'. now rewrite Hp.
    + now rewrite IH.
Qed.

Lemma filter_dict_remove (p : string -> bool) (k : string) (d : dict) :
  p k = false ->
  filter (fun kv => p (fst kv)) (dict_remove k d)
  = filter (fun kv => p (fst kv)) d.
Proof.
  intros Hp. induction d as [|[k' v'] d IH]; simpl; auto.
  destruct (k =? k') eqn:E; simpl.
  - apply String.eqb_eq in E. subst k'. now rewrite Hp.
  - now rewrite IH.
Qed.

(** ** Strings *)

Lemma str_in_In (x : string) (l : list string) :
  str_in x l = true <-> In x l.
Proof.
  unfold str_in. rewrite existsb_exists. split.
  - intros [y [Hy E]]. apply String.eqb_eq in E. now subst.
  - intros H. exists x. split; auto. apply String.eqb_refl.
Qed.

Lemma split_comma_cons (s : string) :
  exists t ts, split_comma s = t :: ts.
Proof.
  destruct s as [|c s]; simpl; eauto.
  destruct (Ascii.eqb c ","); eauto.
  destruct (split_comma s); eauto.
Qed.

(** Joining the pieces of [split_comma] with commas gives the string back,
    and no piece holds a comma: the pieces are the comma-free parts. *)
Lemma concat_split_comma (s : string) :
  String.concat "," (split_comma s) = s.
Proof.
  induction s as [|c s IH]; auto.
  destruct (split_comma_cons s) as [t [ts Es]].
  cbn [split_comma]. rewrite Es in *.
  destruct (Ascii.eqb c ",") eqn:E.
  - apply Ascii.eqb_eq in E. subst c.
    change (("" ++ "," ++ String.concat "," (t :: ts))%string = String "," s).
    now rewrite IH.
  - destruct ts as [|t' ts]; cbn [String.concat] in *.
    + now subst.
    + rewrite <- IH. reflexivity.
Qed.

Lemma split_comma_no_comma (s : string) :
  Forall (fun t => existsb (Ascii.eqb ",") (list_ascii_of_string t) = false)
         (split_comma s).
Proof.
  induction s as [|c s IH]; cbn [split_comma].
  - constructor; auto.
  - destruct (Ascii.eqb c ",") eqn:E.
    + constructor; auto.
    + destruct (split_comma s) as [|t ts]; inversion IH; subst;
        constructor; auto; cbn [list_ascii_of_string existsb].
      * rewrite Ascii.eqb_sym, E. reflexivity.
      * rewrite Ascii.eqb_sym, E. assumption.
Qed.

(** ** The stage normalizer *)

Lemma for_each_warn_stage (l : list string) (t : trace) :
  for_each l warn_stage tt t = (Ok tt, t ++ stage_warnings l).
Proof.
  revert t. induction l as [|s l IH]; intros t.
  - cbn. unfold ret. now rewrite app_nil_r.
  - cbn [for_each]. unfold bind, warn_stage at 1, stage_warnings.
    cbn [filter map].
    destruct (str_in s _CANONICAL_MAPPING); cbn [negb].
    + unfold ret. now rewrite IH.
    + unfold emit. rewrite IH. unfold stage_warnings.
      cbn [map]. now rewrite <- app_assoc.
Qed.

Lemma lower_and_check_run (env : Env) (l : list string) (t : trace) :
  lower_and_check env l t
  = (Ok (map (str_lower env) l),
     t ++ stage_warnings (map (str_lower env) l)).
Proof.
  unfold lower_and_check, bind. now rewrite for_each_warn_stage.
Qed.

Lemma normalize_stages_run (env : Env) (stages : stages_param) (t : trace) :
  _normalize_stages env stages t
  = (Ok (map (str_lower env) (tokens_of stages)),
     t ++ stage_warnings (map (str_lower env) (tokens_of stages))).
Proof.
  destruct stages as [|s|l]; simpl.
  - unfold ret, stage_warnings. simpl. now rewrite app_nil_r.
  - destruct (s =? ""); [|apply lower_and_check_run].
    unfold ret, stage_warnings. simpl. now rewrite app_nil_r.
  - apply lower_and_check_run.
Qed.

(** The pieces of [split_comma]: a comma-free string is one piece, and a
    comma after a comma-free string ends a piece. *)
Lemma split_comma_free (t : string) :
  comma_free t -> split_comma t = [t].
Proof.
  unfold comma_free, has_comma.
  induction t as [|c t IH]; cbn [split_comma list_ascii_of_string existsb];
    auto.
  intros H. apply orb_false_iff in H. destruct H as [Hc Ht].
  rewrite Ascii.eqb_sym in Hc. rewrite Hc, (IH Ht). reflexivity.
Qed.

Lemma split_comma_piece (t rest : string) :
  comma_free t ->
  split_comma (t ++ String "," rest) = t :: split_comma rest.
Proof.
  unfold comma_free, has_comma.
  induction t as [|c t IH];
    cbn [split_comma list_ascii_of_string existsb String.append].
  - reflexivity.
  - intros H. apply orb_false_iff in H. destruct H as [Hc Ht].
    rewrite Ascii.eqb_sym in Hc. rewrite Hc, (IH Ht). reflexivity.
Qed.

Lemma split_comma_concat (ts : list string) :
  ts <> [] -> Forall comma_free ts ->
  split_comma (String.concat "," ts) = ts.
Proof.
  induction ts as [|t ts IH]; [congruence|]. intros _ Hall.
  inversion Hall as [|? ? Ht Hts]; subst.
  destruct ts as [|t2 ts].
  - cbn [String.concat]. now apply split_comma_free.
  - change (String.concat "," (t :: t2 :: ts))
      with (t ++ String "," (String.concat "," (t2 :: ts)))%string.
    rewrite split_comma_piece by assumption.
    rewrite IH; auto. discriminate.
Qed.

Lemma split_comma_comma_free (s : string) :
  Forall comma_free (split_comma s).
Proof. apply split_comma_no_comma. Qed.

(** C7. The stage normalizer never raises: it returns a list, and its only
    effects are warnings, one for each token of that list that is outside
    the stage vocabulary, the token being kept. It gives the empty list
    for [None], for the empty string and for the empty sequence. For a
    sequence it gives every member lower-cased, in order. For a string it
    gives the lower-cased comma-separated parts: a string that is the
    comma-join of comma-free parts gives these parts lower-cased, and
    every string is such a join. On the small registry,
    ["Production,STAGING,foo"] gives [production], [staging], [foo] and
    one warning, for [foo]. *)
Theorem normalize_stages_lowercases_and_warns :
  (forall env stages t,
      exists l,
        _normalize_stages env stages t
        = (Ok l,
           t ++ map (fun s => Log WARNING (MsgStage s))
                  (filter (fun s => negb (str_in s _CANONICAL_MAPPING)) l)))
  /\ (forall env t, _normalize_stages env StagesNone t = (Ok [], t))
  /\ (forall env t, _normalize_stages env (StagesStr "") t = (Ok [], t))
  /\ (forall env t, _normalize_stages env (StagesSeq []) t = (Ok [], t))
  /\ (forall env l t,
        _normalize_stages env (StagesSeq l) t
        = (Ok (map (str_lower env) l),
           t ++ map (fun s => Log WARNING (MsgStage s))
                  (filter (fun s => negb (str_in s _CANONICAL_MAPPING))
                     (map (str_lower env) l))))
  /\ (forall env ts t,
        Forall comma_free ts -> String.concat "," ts <> "" ->
        _normalize_stages env (StagesStr (String.concat "," ts)) t
        = (Ok (map (str_lower env) ts),
           t ++ map (fun s => Log WARNING (MsgStage s))
                  (filter (fun s => negb (str_in s _CANONICAL_MAPPING))
                     (map (str_lower env) ts))))
  /\ (forall s, exists ts,
        Forall comma_free ts /\ String.concat "," ts = s)
  /\ _normalize_stages Demo.env (StagesStr "Production,STAGING,foo") []
     = (Ok ["production"; "staging"; "foo"], [Log WARNING (MsgStage "foo")]).
Proof.
  split; [|split; [|split; [|split; [|split; [|split; [|split]]]]]].
  - intros env stages t. eexists. apply normalize_stages_run.
  - reflexivity.
  - reflexivity.
  - reflexivity.
  - intros env l t. apply (normalize_stages_run env (StagesSeq l)).
  - intros env ts t Hfree Hne.
    rewrite normalize_stages_run. cbn [tokens_of].
    destruct (String.concat "," ts =? "") eqn:E.
    + apply String.eqb_eq in E. contradiction.
    + rewrite split_comma_concat; auto.
      intros ->. now apply Hne.
  - intros s. exists (split_comma s). split.
    + apply split_comma_comma_free.
    + apply concat_split_comma.
  - reflexivity.
Qed.

Lemma normalize_stages_lowercases_and_warns_witness :
  _normalize_stages Demo.env (StagesStr "Production,Foo") []
  = (Ok ["production"; "foo"], [Log WARNING (MsgStage "foo")]).
Proof.
  destruct normalize_stages_lowercases_and_warns
    as [_ [_ [_ [_ [_ [H _]]]]]].
  apply (H Demo.env ["Production"; "Foo"] []).
  - repeat constructor.
  - discriminate.
Defined.

(** ** The model-level export: what leaves [export_model] *)

Lemma versions_of_truthy (versions : option (list string)) :
  match versions with Some (v :: vs) => v :: vs | _ => [] end
  = versions_of versions.
Proof. destruct versions as [[|v vs]|]; reflexivity. Qed.

Lemma export_model_unfold (env : Env) (model_name output_dir : string)
    (stages : stages_param) (versions : option (list string))
    (latest version_model permissions deleted : bool)
    (formats : option (list string)) (t : trace) :
  let S := map (str_lower env) (tokens_of stages) in
  let V := versions_of versions in
  let t1 := t ++ stage_warnings S in
  export_model env model_name output_dir stages versions latest
    version_model permissions deleted formats t
  = if (0 <? List.length S)%nat && (0 <? List.length V)%nat then
      (Raise (MlflowExportImportException
                "Both stages and versions cannot be set" S V 400), t1)
    else
      match _export_model env model_name output_dir
              (Build_Options S V latest deleted version_model permissions
                 formats) t1 with
      | (Ok _, t2) => (Ok (true, model_name), t2)
      | (Raise (RestException json), t2) =>
          (Ok (false, model_name),
           snd ((if error_code_is json "RESOURCE_DOES_NOT_EXIST" then
                   emit (Log ERROR (MsgDict
                     (dict_merge [("message", VStr "Model does not exist")]
                        [ ("model", VStr model_name);
                          ("RestException", VDict json) ])))
                 else
                   emit (Log ERROR (MsgDict
                     (dict_merge
                        [("message", VStr "Model cannot be exported")]
                        [ ("model", VStr model_name);
                          ("RestException", VDict json) ]))) ;;
                   emit Traceback) t2))
      | (Raise e, t2) =>
          (Ok (false, model_name),
           t2 ++ [Log ERROR (MsgException model_name e); Traceback])
      end.
Proof.
  intros S V t1. unfold export_model, bind at 1.
  rewrite normalize_stages_run, versions_of_truthy. fold S V t1.
  destruct ((0 <? List.length S)%nat && (0 <? List.length V)%nat);
    [reflexivity|].
  unfold try_except, bind at 1.
  destruct (_export_model _ _ _ _ t1) as [[[]|e] t2]; [reflexivity|].
  destruct e; try (unfold bind, emit, ret; simpl;
                   now rewrite <- app_assoc).
  unfold bind. destruct (error_code_is json "RESOURCE_DOES_NOT_EXIST");
    unfold emit, ret; reflexivity.
Qed.

(** C2. When the normalised stage filter and the version filter are both
    non-empty, [export_model] raises the configuration error (status 400)
    instead of returning a result. Nothing has happened by then but the
    warnings of the stage normalizer: no version was listed or exported
    and no file was written. *)
Theorem export_model_rejects_both_filters (env : Env)
    (model_name output_dir : string) (stages : stages_param)
    (versions : option (list string))
    (latest version_model permissions deleted : bool)
    (formats : option (list string)) (t : trace) :
  (0 < List.length (map (str_lower env) (tokens_of stages)))%nat ->
  (0 < List.length (versions_of versions))%nat ->
  export_model env model_name output_dir stages versions latest
    version_model permissions deleted formats t
  = (Raise (MlflowExportImportException
              "Both stages and versions cannot be set"
              (map (str_lower env) (tokens_of stages))
              (versions_of versions) 400),
     t ++ stage_warnings (map (str_lower env) (tokens_of stages)))
  /\ Forall (fun ev => exists s, ev = Log WARNING (MsgStage s))
            (stage_warnings (map (str_lower env) (tokens_of stages))).
Proof.
  intros HS HV. split.
  - rewrite export_model_unfold.
    apply Nat.ltb_lt in HS, HV. now rewrite HS, HV.
  - unfold stage_warnings. apply Forall_forall. intros ev Hev.
    apply in_map_iff in Hev. destruct Hev as [s [Hs _]]. eauto.
Qed.

Lemma export_model_rejects_both_filters_witness :
  export_model Demo.env "m1" "out" (StagesStr "Production,Foo") (Some ["1"])
    false false false false None []
  = (Raise (MlflowExportImportException
              "Both stages and versions cannot be set"
              ["production"; "foo"] ["1"] 400),
     [Log WARNING (MsgStage "foo")])
  /\ Forall (fun ev => exists s, ev = Log WARNING (MsgStage s))
            [Log WARNING (MsgStage "foo")].
Proof.
  apply (export_model_rejects_both_filters Demo.env "m1" "out"
           (StagesStr "Production,Foo") (Some ["1"])
           false false false false None []); simpl; lia.
Defined.

(** C1, as stated, fails: with a stage filter and a version filter both
    given, [export_model] raises instead of returning a pair. *)
Lemma export_model_raises_on_both_filters :
  fst (export_model Demo.env "m1" "out" (StagesStr "Production")
         (Some ["1"]) false false false false None [])
  = Raise (MlflowExportImportException
             "Both stages and versions cannot be set"
             ["production"] ["1"] 400)
  /\ ~ exists b,
         fst (export_model Demo.env "m1" "out" (StagesStr "Production")
                (Some ["1"]) false false false false None [])
         = Ok (b, "m1").
Proof.
  split; [reflexivity|]. intros [b H]. vm_compute in H. discriminate.
Qed.

(** C1, amended. When the normalised stage filter or the version filter
    is empty, [export_model] returns a pair of a boolean and the model
    name, whatever the collaborators do: the boolean is true when
    [_export_model] returned, and false when it raised (a [RestException]
    or any other exception). *)
Theorem export_model_returns_pair (env : Env)
    (model_name output_dir : string) (stages : stages_param)
    (versions : option (list string))
    (latest version_model permissions deleted : bool)
    (formats : option (list string)) (t : trace) :
  (List.length (map (str_lower env) (tokens_of stages)) = 0
   \/ List.length (versions_of versions) = 0)%nat ->
  exists t',
    export_model env model_name output_dir stages versions latest
      version_model permissions deleted formats t
    = (Ok (is_Ok (fst (_export_model env model_name output_dir
                         (Build_Options (map (str_lower env) (tokens_of stages))
                            (versions_of versions) latest deleted
                            version_model permissions formats)
                         (t ++ stage_warnings
                                 (map (str_lower env) (tokens_of stages))))),
           model_name), t').
Proof.
  intros H. rewrite export_model_unfold.
  replace ((0 <? List.length (map (str_lower env) (tokens_of stages)))%nat
           && (0 <? List.length (versions_of versions))%nat) with false.
  - destruct (_export_model _ _ _ _ _) as [[[]|e] t2]; simpl.
    + eauto.
    + destruct e; eauto.
  - symmetry. apply andb_false_iff.
    destruct H as [H | H]; rewrite H; auto.
Qed.

Lemma export_model_returns_pair_witness :
  exists t',
    export_model Demo.env "ghost" "out" (StagesStr "Production") None
      false false false false None []
    = (Ok (false, "ghost"), t').
Proof.
  apply (export_model_returns_pair Demo.env "ghost" "out"
           (StagesStr "Production") None false false false false None []).
  right. reflexivity.
Defined.

(** ** The run copy *)

Lemma rmtree_removes (d p : string) (s : CopyRun.fs) :
  In p (CopyRun.rmtree d s) -> CopyRun.under d p = false.
Proof.
  unfold CopyRun.rmtree. rewrite filter_In. intros [_ H].
  now apply negb_true_iff in H.
Qed.

Lemma under_refl (d : string) : CopyRun.under d d = true.
Proof. unfold CopyRun.under. now rewrite String.eqb_refl. Qed.

Lemma rmtree_not_exists (d : string) (s : CopyRun.fs) :
  CopyRun.exists_path d (CopyRun.rmtree d s) = false.
Proof.
  destruct (CopyRun.exists_path d (CopyRun.rmtree d s)) eqn:E; auto.
  apply str_in_In, rmtree_removes in E. now rewrite under_refl in E.
Qed.

(** C6. The staging directory of [_copy] does not exist when the call is
    over, and neither does anything under it, whatever the exporter and
    the importer do to the file system: when the export raises (the
    import is then not run), when the import raises, and when both
    return. The exception of a failed phase, or the run given by the
    importer, is what [_copy] gives. *)
Theorem copy_releases_staging_dir (env : CopyRun.Env)
    (src_run_id dst_experiment_name : string)
    (src_client dst_client : CopyRun.MlflowClient) (s : CopyRun.fs) :
  let d := CopyRun.mkdtemp env s in
  let after := CopyRun._copy env src_run_id dst_experiment_name
                 src_client dst_client s in
  CopyRun.exists_path d (snd after) = false
  /\ (forall p, In p (snd after) -> CopyRun.under d p = false)
  /\ match CopyRun.export_run env src_run_id d ["SOURCE"] src_client
             (CopyRun.mkdir d s) with
     | (Raise e, s1) =>
         after = (Raise e, CopyRun.rmtree d s1)
     | (Ok _, s1) =>
         match CopyRun.import_run env d dst_experiment_name dst_client s1
         with
         | (Raise e, s2) => after = (Raise e, CopyRun.rmtree d s2)
         | (Ok (dst_run, _), s2) => after = (Ok dst_run, CopyRun.rmtree d s2)
         end
     end.
Proof.
  intros d after.
  assert (Hafter : exists r s', after = (r, CopyRun.rmtree d s')).
  { unfold after, CopyRun._copy, CopyRun.with_TemporaryDirectory.
    fold d. destruct (bind _ _ _) as [r s']. eauto. }
  destruct Hafter as [r [s' Hafter]].
  split; [|split].
  - rewrite Hafter. apply rmtree_not_exists.
  - rewrite Hafter. intros p. apply rmtree_removes.
  - unfold after, CopyRun._copy, CopyRun.with_TemporaryDirectory, bind.
    fold d.
    destruct (CopyRun.export_run env src_run_id d ["SOURCE"] src_client
                (CopyRun.mkdir d s)) as [[[]|e] s1]; auto.
    destruct (CopyRun.import_run env d dst_experiment_name dst_client s1)
      as [[[dst_run meta]|e] s2]; auto.
Qed.

(** ** The descriptor assembler *)

Lemma adjust_timestamps_added (env : Env) (d : dict) :
  timestamps_added env d
    (_adjust_timestamp env (_adjust_timestamp env d "creation_timestamp")
       "last_updated_timestamp").
Proof.
  unfold timestamps_added, _adjust_timestamp.
  change ("_" ++ "creation_timestamp")%string with "_creation_timestamp".
  change ("_" ++ "last_updated_timestamp")%string
    with "_last_updated_timestamp".
  repeat split.
  - rewrite dict_get_set_other by discriminate. apply dict_get_set_same.
  - rewrite dict_get_set_same.
    now rewrite dict_get_none_set_other by discriminate.
  - intros k H1 H2. now rewrite !dict_get_set_other by assumption.
Qed.

Lemma adjust_versions_added (env : Env) (versions : list dict) :
  Forall2 (timestamps_added env) versions
    (snd (_adjust_model env [] versions)).
Proof.
  cbv beta zeta iota delta [_adjust_model dict_pop snd].
  induction versions; cbn [map]; constructor;
    auto using adjust_timestamps_added.
Qed.

Lemma adjust_model_versions_indep (env : Env) (m m' : dict)
    (versions : list dict) :
  snd (_adjust_model env m versions) = snd (_adjust_model env m' versions).
Proof. reflexivity. Qed.

(** The model after [_adjust_model], step by step. *)
Lemma adjust_model_unfold (env : Env) (model : dict) (versions : list dict) :
  let m2 := _adjust_timestamp env
              (_adjust_timestamp env model "creation_timestamp")
              "last_updated_timestamp" in
  let tags := dict_get_none "tags" model in
  let m3 := dict_remove "tags" m2 in
  let m4 := if truthy tags then dict_set "tags" tags m3 else m3 in
  let versions' := snd (_adjust_model env model versions) in
  _adjust_model env model versions
  = (dict_remove "latest_versions"
       (dict_set "versions" (VList (map VDict versions')) m4),
     versions').
Proof.
  cbv zeta. unfold _adjust_model, dict_pop. cbn [snd].
  replace (dict_get_none "tags"
             (_adjust_timestamp env
                (_adjust_timestamp env model "creation_timestamp")
                "last_updated_timestamp"))
    with (dict_get_none "tags" model); [reflexivity|].
  unfold _adjust_timestamp.
  now rewrite !dict_get_none_set_other by discriminate.
Qed.

(** C8, as stated, fails: a [tags] field whose value is empty is not moved
    to the end but dropped. *)
Lemma adjust_model_drops_empty_tags :
  dict_get "tags" Demo.untagged_model = Some (VList [])
  /\ ~ In "tags" (keys (fst (_adjust_model Demo.env Demo.untagged_model []))).
Proof.
  split; [reflexivity|]. vm_compute. intuition discriminate.
Qed.

(** C8, amended. [_adjust_model] sets [_creation_timestamp] and
    [_last_updated_timestamp] to the formatted raw timestamps, on the model
    and on each version; it puts the list of the versions so updated under
    [versions]; it removes [latest_versions]; a [tags] field whose value
    is non-empty (true as a Python condition) is moved behind the fields
    of the model, with only a newly added [versions] entry after it, while
    an absent, null or empty [tags] is not in the result; every other
    field of the model, the raw timestamps among them, keeps its value and
    its place among the others. *)
Theorem adjust_model_assembles (env : Env) (model : dict)
    (versions : list dict) :
  let model' := fst (_adjust_model env model versions) in
  let versions' := snd (_adjust_model env model versions) in
  let tags := dict_get_none "tags" model in
  dict_get "_creation_timestamp" model'
  = Some (fmt_ts_millis env (dict_get_none "creation_timestamp" model))
  /\ dict_get "_last_updated_timestamp" model'
     = Some (fmt_ts_millis env
               (dict_get_none "last_updated_timestamp" model))
  /\ Forall2 (timestamps_added env) versions versions'
  /\ dict_get "versions" model' = Some (VList (map VDict versions'))
  /\ dict_get "latest_versions" model' = None
  /\ (if truthy tags then
        exists pre post,
          model' = pre ++ ("tags", tags) :: post
          /\ ~ In "tags" (keys pre)
          /\ (post = []
              \/ post = [("versions", VList (map VDict versions'))])
      else dict_get "tags" model' = None)
  /\ (forall k, ~ In k assembled_keys ->
                dict_get k model' = dict_get k model)
  /\ filter other_field model' = filter other_field model.
Proof.
  intros model' versions' tags.
  pose proof (adjust_timestamps_added env model) as [Hc [Hu Ho]].
  set (m2 := _adjust_timestamp env
               (_adjust_timestamp env model "creation_timestamp")
               "last_updated_timestamp") in *.
  set (V := VList (map VDict versions')).
  assert (Hm : model'
               = dict_remove "latest_versions"
                   (dict_set "versions" V
                      (if truthy tags
                       then dict_set "tags" tags (dict_remove "tags" m2)
                       else dict_remove "tags" m2))).
  { unfold model'. now rewrite adjust_model_unfold. }
  assert (Hget : forall k, k <> "tags" -> k <> "versions" ->
                           k <> "latest_versions" ->
                           dict_get k model' = dict_get k m2).
  { intros k H1 H2 H3. rewrite Hm.
    rewrite dict_get_remove_other, dict_get_set_other by assumption.
    destruct (truthy tags).
    - now rewrite dict_get_set_other, dict_get_remove_other by assumption.
    - now rewrite dict_get_remove_other by assumption. }
  repeat split.
  - rewrite Hget by discriminate. exact Hc.
  - rewrite Hget by discriminate. exact Hu.
  - unfold versions'.
    rewrite (adjust_model_versions_indep env model []).
    apply adjust_versions_added.
  - rewrite Hm. rewrite dict_get_remove_other by discriminate.
    apply dict_get_set_same.
  - rewrite Hm. apply dict_get_remove_same.
  - destruct (truthy tags) eqn:Et.
    + rewrite Hm.
      rewrite (dict_set_absent "tags") by apply dict_get_remove_same.
      destruct (dict_get "versions" (dict_remove "tags" m2)) eqn:Ev.
      * exists (dict_remove "latest_versions"
                  (dict_set "versions" V (dict_remove "tags" m2))), [].
        repeat split; auto.
        -- rewrite dict_set_present_app by congruence.
           now rewrite dict_remove_app.
        -- apply dict_get_In.
           rewrite dict_get_remove_other, dict_get_set_other
             by discriminate.
           apply dict_get_remove_same.
      * exists (dict_remove "latest_versions" (dict_remove "tags" m2)),
               [("versions", V)].
        repeat split; auto.
        -- rewrite dict_set_absent.
           ++ rewrite <- app_assoc. now rewrite dict_remove_app.
           ++ apply dict_get_In. unfold keys. rewrite map_app, in_app_iff.
              intros [H | [H | []]]; [|discriminate H].
              now apply dict_get_In in Ev.
        -- apply dict_get_In.
           rewrite dict_get_remove_other by discriminate.
           apply dict_get_remove_same.
    + rewrite Hm. rewrite dict_get_remove_other by discriminate.
      rewrite dict_get_set_other by discriminate.
      apply dict_get_remove_same.
  - intros k Hk. unfold assembled_keys in Hk. cbn [In] in Hk.
    rewrite Hget by intuition congruence.
    apply Ho; intuition congruence.
  - rewrite Hm. unfold other_field.
    rewrite (filter_dict_remove
               (fun k => negb (str_in k assembled_keys))) by reflexivity.
    rewrite (filter_dict_set
               (fun k => negb (str_in k assembled_keys))) by reflexivity.
    assert (H3 : filter (fun kv => negb (str_in (fst kv) assembled_keys))
                   (dict_remove "tags" m2)
                 = filter (fun kv => negb (str_in (fst kv) assembled_keys))
                     model).
    { rewrite (filter_dict_remove
                 (fun k => negb (str_in k assembled_keys))) by reflexivity.
      unfold m2, _adjust_timestamp.
      now rewrite !(filter_dict_set
                      (fun k => negb (str_in k assembled_keys)))
        by reflexivity. }
    destruct (truthy tags); [|exact H3].
    now rewrite (filter_dict_set
                   (fun k => negb (str_in k assembled_keys)))
      by reflexivity.
Qed.

(** ** The version export driver *)

(** The outcome of the export of a version does not depend on what was
    done before. *)
Lemma export_version_try_run (env : Env) (output_dir : string)
    (opts : Options) (vr : ModelVersion) (t : trace) :
  export_version_try env vr output_dir (path_join output_dir (run_id vr))
    opts t
  = (attempt env output_dir opts vr,
     t ++ attempt_events env output_dir opts vr).
Proof.
  unfold attempt, attempt_events, export_version_try, bind, call, ret.
  cbn.
  destruct (export_run env _ _ _ _) as [[]|e1]; cbn; [|reflexivity].
  destruct (get_run env _) as [run|e2]; cbn;
    [|now rewrite <- app_assoc].
  destruct (get_experiment env _) as [ex|e3]; cbn;
    [|now rewrite <- !app_assoc].
  destruct (export_version_model opts); cbn;
    [|now rewrite <- !app_assoc].
  destruct (model_utils_export_version_model env _ _) as [uri|e4]; cbn;
    now rewrite <- !app_assoc.
Qed.

Lemma export_version_except_run (vr : ModelVersion) (json : dict)
    (t : trace) :
  export_version_except vr json t
  = (Ok (failure_record vr json), t ++ failure_events vr json).
Proof.
  unfold export_version_except, failure_events, failure_record,
    failure_message, bind, emit, ret.
  destruct (error_code_is json "RESOURCE_DOES_NOT_EXIST"); cbn;
    now rewrite <- ?app_assoc.
Qed.

Lemma export_version_run (env : Env) (vr : ModelVersion)
    (output_dir : string) (o f : list dict) (j n : nat) (opts : Options)
    (t : trace) :
  _export_version env vr output_dir o f j n opts t
  = (match attempt env output_dir opts vr with
     | Ok d => Ok (o ++ [d], f)
     | Raise (RestException json) => Ok (o, f ++ [failure_record vr json])
     | Raise e => Raise e
     end,
     t ++ version_events env output_dir opts n j vr).
Proof.
  unfold _export_version, version_events, try_except, bind at 1, emit.
  unfold bind at 1. rewrite export_version_try_run.
  destruct (attempt env output_dir opts vr) as [d|e].
  - unfold ret. rewrite app_nil_r. now rewrite <- app_assoc.
  - destruct e; unfold raise;
      try (rewrite app_nil_r; now rewrite <- app_assoc).
    unfold bind. rewrite export_version_except_run. unfold ret.
    now rewrite <- !app_assoc.
Qed.

(** The loop of [_export_versions]: the selected versions are exported in
    the order of the listing, each one adding a descriptor or a failure
    record, until the end of the list or the first crash. *)
Lemma export_versions_loop (env : Env) (output_dir : string)
    (opts : Options) (n : nat) (jvs : list (nat * ModelVersion)) :
  forall (o f : list dict) (t : trace),
    for_each jvs (export_versions_step env output_dir opts n) (o, f) t
    = (match first_crash env output_dir opts
               (filter (selected env opts) (map snd jvs)) with
       | Some e => Raise e
       | None =>
           Ok (o ++ descriptors env output_dir opts
                      (filter (selected env opts) (map snd jvs)),
               f ++ failure_records env output_dir opts
                      (filter (selected env opts) (map snd jvs)))
       end,
       t ++ versions_events env output_dir opts n jvs).
Proof.
  induction jvs as [|[j vr] jvs IH]; intros o f t.
  - cbn. unfold ret. now rewrite !app_nil_r.
  - cbn [for_each map snd filter versions_events].
    unfold bind, export_versions_step at 1.
    assert (Hsel : selected env opts vr
                   = negb (skipped_by_stage env opts vr)
                     && negb (skipped_by_version opts vr)) by reflexivity.
    destruct (skipped_by_stage env opts vr); cbn [negb andb] in Hsel.
    { rewrite Hsel. unfold ret. apply IH. }
    destruct (skipped_by_version opts vr); cbn [negb andb] in Hsel.
    { rewrite Hsel. unfold ret. apply IH. }
    rewrite Hsel, export_version_run.
    unfold descriptors, failure_records, crashed.
    cbn [first_crash flat_map].
    destruct (attempt env output_dir opts vr) as [d|e].
    + rewrite IH. unfold descriptors, failure_records.
      now rewrite <- !app_assoc.
    + destruct e; cbn [is_RestException negb];
        try now rewrite app_nil_r.
      rewrite IH. unfold descriptors, failure_records.
      now rewrite <- !app_assoc.
Qed.

(** *** Sorting the descriptors *)

Lemma insert_by_perm {A} (x : string * A) (l : list (string * A)) :
  Permutation (insert_by x l) (x :: l).
Proof.
  induction l as [|y l IH]; cbn [insert_by]; auto.
  destruct (String.leb (fst x) (fst y)); auto.
  rewrite IH. apply perm_swap.
Qed.

Lemma sort_keyed_perm {A} (l : list (string * A)) :
  Permutation (sort_keyed l) l.
Proof.
  induction l as [|x l IH]; cbn [sort_keyed]; auto.
  rewrite insert_by_perm. now constructor.
Qed.

Lemma insert_by_sorted {A} (x : string * A) (l : list (string * A)) :
  Sorted key_le l -> Sorted key_le (insert_by x l).
Proof.
  induction l as [|y l IH]; intros Hs; cbn [insert_by].
  - repeat constructor.
  - destruct (String.leb (fst x) (fst y)) eqn:E.
    + constructor; auto.
    + inversion Hs as [|? ? Hs' Hhd]; subst.
      constructor; auto.
      assert (Hyx : key_le y x).
      { unfold key_le.
        destruct (String.leb_total (fst x) (fst y)); congruence. }
      destruct l as [|z l]; cbn [insert_by].
      * constructor. exact Hyx.
      * destruct (String.leb (fst x) (fst z)); constructor; auto.
        now inversion Hhd.
Qed.

Lemma sort_keyed_sorted {A} (l : list (string * A)) :
  Sorted key_le (sort_keyed l).
Proof.
  induction l; cbn [sort_keyed]; [constructor|].
  now apply insert_by_sorted.
Qed.

Lemma map_snd_combine_same {A B} (a : list A) (b : list B) :
  List.length a = List.length b -> map snd (combine a b) = b.
Proof.
  revert b. induction a as [|x a IH]; intros [|y b]; cbn; try discriminate.
  - reflexivity.
  - intros H. f_equal. apply IH. now injection H.
Qed.

Lemma map_snd_enumerate {A} (l : list A) : map snd (enumerate l) = l.
Proof.
  unfold enumerate. apply map_snd_combine_same. apply length_seq.
Qed.

Lemma version_keys_spec (l : list dict) (ks : list string) :
  version_keys l = Ok ks ->
  Forall2 (fun d k => version_key d = Ok k) l ks.
Proof.
  revert ks. induction l as [|d l IH]; intros ks; cbn [version_keys].
  - intros H. injection H as <-. constructor.
  - destruct (version_key d) as [k|] eqn:Ek; [|discriminate].
    destruct (version_keys l) as [ks'|]; [|discriminate].
    intros H. injection H as <-. constructor; auto.
Qed.

Lemma version_keys_total (l : list dict) :
  Forall (fun d => exists k, version_key d = Ok k) l ->
  exists ks, version_keys l = Ok ks.
Proof.
  induction 1 as [|d l [k Hk] _ [ks IH]]; cbn [version_keys]; eauto.
  rewrite Hk, IH. eauto.
Qed.

(** When it returns, [sort_by_version] gives the same descriptors, in the
    order of their version keys under string comparison. *)
Lemma sort_by_version_spec (l l' : list dict) :
  sort_by_version l = Ok l' ->
  Permutation l' l
  /\ Sorted (fun d1 d2 => exists k1 k2,
               version_key d1 = Ok k1 /\ version_key d2 = Ok k2
               /\ String.leb k1 k2 = true) l'.
Proof.
  unfold sort_by_version.
  destruct (version_keys l) as [ks|] eqn:Eks; [|discriminate].
  intros H. injection H as <-.
  apply version_keys_spec in Eks.
  assert (Hlen : List.length ks = List.length l)
    by (symmetry; eapply Forall2_length; eauto).
  split.
  - rewrite sort_keyed_perm. now rewrite map_snd_combine_same.
  - assert (Hall : Forall (fun kd => version_key (snd kd) = Ok (fst kd))
                     (sort_keyed (combine ks l))).
    { eapply Permutation_Forall; [symmetry; apply sort_keyed_perm|].
      clear Hlen. induction Eks; cbn; constructor; auto. }
    pose proof (sort_keyed_sorted (combine ks l)) as Hs.
    induction Hs as [|kd rest Hs IH Hhd]; cbn [map]; [constructor|].
    inversion Hall as [|? ? Hkd Hrest]; subst.
    constructor; auto.
    destruct Hhd as [|kd' rest' Hle]; cbn [map]; constructor.
    inversion Hrest; subst. exists (fst kd), (fst kd'). auto.
Qed.

(** *** The descriptors and the failure records *)

Lemma attempt_identity (env : Env) (output_dir : string) (opts : Options)
    (vr : ModelVersion) (d : dict) :
  attempt env output_dir opts vr = Ok d ->
  dict_get "name" d = Some (VStr (name vr))
  /\ dict_get "version" d = Some (VStr (version vr))
  /\ dict_get "run_id" d = Some (VStr (run_id vr)).
Proof.
  unfold attempt, export_version_try, bind, call, ret. cbn.
  destruct (export_run env _ _ _ _) as [[]|]; cbn; [|discriminate].
  destruct (get_run env _) as [run|]; cbn; [|discriminate].
  destruct (get_experiment env _) as [ex|]; cbn; [|discriminate].
  destruct (export_version_model opts); cbn.
  - destruct (model_utils_export_version_model env _ _); cbn;
      [|discriminate].
    intros H. injection H as <-. repeat split.
  - intros H. injection H as <-. repeat split.
Qed.

Lemma descriptors_In (env : Env) (output_dir : string) (opts : Options)
    (vs : list ModelVersion) (d : dict) :
  In d (descriptors env output_dir opts vs)
  <-> exists vr, In vr vs /\ attempt env output_dir opts vr = Ok d.
Proof.
  unfold descriptors. rewrite in_flat_map. split.
  - intros [vr [Hvr Hd]]. exists vr. split; auto.
    destruct (attempt env output_dir opts vr); cbn in Hd; [|tauto].
    destruct Hd as [<-|[]]. reflexivity.
  - intros [vr [Hvr Hd]]. exists vr. split; auto. rewrite Hd. now left.
Qed.

Lemma failure_records_In (env : Env) (output_dir : string) (opts : Options)
    (vs : list ModelVersion) (r : dict) :
  In r (failure_records env output_dir opts vs)
  <-> exists vr json, In vr vs
        /\ attempt env output_dir opts vr = Raise (RestException json)
        /\ r = failure_record vr json.
Proof.
  unfold failure_records. rewrite in_flat_map. split.
  - intros [vr [Hvr Hr]].
    destruct (attempt env output_dir opts vr) as [|e] eqn:E;
      cbn in Hr; [tauto|].
    destruct e; cbn in Hr; try tauto.
    destruct Hr as [<-|[]]. eauto.
  - intros [vr [json [Hvr [Ha ->]]]]. exists vr. split; auto.
    rewrite Ha. now left.
Qed.

Lemma descriptors_keys (env : Env) (output_dir : string) (opts : Options)
    (vs : list ModelVersion) :
  exists ks, version_keys (descriptors env output_dir opts vs) = Ok ks.
Proof.
  apply version_keys_total, Forall_forall. intros d Hd.
  apply descriptors_In in Hd. destruct Hd as [vr [_ Ha]].
  apply attempt_identity in Ha. destruct Ha as [_ [Hv _]].
  exists (version vr). unfold version_key. now rewrite Hv.
Qed.

Lemma sort_descriptors (env : Env) (output_dir : string) (opts : Options)
    (vs : list ModelVersion) :
  exists outs,
    sort_by_version (descriptors env output_dir opts vs) = Ok outs.
Proof.
  unfold sort_by_version.
  destruct (descriptors_keys env output_dir opts vs) as [ks ->]. eauto.
Qed.

Lemma length_descriptors (env : Env) (output_dir : string) (opts : Options)
    (vs : list ModelVersion) :
  List.length (descriptors env output_dir opts vs)
  = List.length (filter (exported env output_dir opts) vs).
Proof.
  unfold descriptors, exported.
  induction vs as [|vr vs IH]; cbn [flat_map filter]; auto.
  rewrite length_app, IH.
  destruct (attempt env output_dir opts vr); reflexivity.
Qed.

Lemma length_failure_records (env : Env) (output_dir : string)
    (opts : Options) (vs : list ModelVersion) :
  List.length (failure_records env output_dir opts vs)
  = List.length (filter (failed env output_dir opts) vs).
Proof.
  unfold failure_records, failed.
  induction vs as [|vr vs IH]; cbn [flat_map filter]; auto.
  rewrite length_app, IH.
  destruct (attempt env output_dir opts vr) as [|[]]; reflexivity.
Qed.

Lemma first_crash_None (env : Env) (output_dir : string) (opts : Options)
    (vs : list ModelVersion) :
  first_crash env output_dir opts vs = None
  <-> forallb (fun vr => negb (crashed env output_dir opts vr)) vs = true.
Proof.
  unfold crashed.
  induction vs as [|vr vs IH]; cbn [first_crash forallb]; [tauto|].
  destruct (attempt env output_dir opts vr) as [|[]]; cbn; try exact IH;
    split; discriminate.
Qed.

Lemma exported_or_failed (env : Env) (output_dir : string) (opts : Options)
    (vs : list ModelVersion) :
  forallb (fun vr => negb (crashed env output_dir opts vr)) vs = true ->
  List.length (filter (exported env output_dir opts) vs)
  + List.length (filter (failed env output_dir opts) vs)
  = List.length vs.
Proof.
  unfold crashed, exported, failed.
  induction vs as [|vr vs IH]; cbn [forallb filter]; auto.
  destruct (attempt env output_dir opts vr) as [|[]]; cbn;
    try discriminate; intros H; specialize (IH H); lia.
Qed.

(** [_export_versions], in one step. *)
Lemma export_versions_run (env : Env) (vs : list ModelVersion)
    (output_dir : string) (opts : Options) (t : trace) :
  _export_versions env vs output_dir opts t
  = (match first_crash env output_dir opts (filter (selected env opts) vs) with
     | Some e => Raise e
     | None =>
         match sort_by_version
                 (descriptors env output_dir opts
                    (filter (selected env opts) vs)) with
         | Ok outs =>
             Ok (outs, failure_records env output_dir opts
                         (filter (selected env opts) vs))
         | Raise e => Raise e
         end
     end,
     t ++ versions_events env output_dir opts (List.length vs)
            (enumerate vs)).
Proof.
  unfold _export_versions, bind at 1.
  rewrite export_versions_loop, map_snd_enumerate.
  destruct (first_crash _ _ _ _); [reflexivity|].
  unfold bind, lift, ret. cbn [app].
  destruct (sort_by_version _); reflexivity.
Qed.

(** *** Failure isolation *)

(** C3, as stated, fails: a selected version whose export raises an
    exception that is not a [RestException] is not caught at the version
    boundary. No failure record is made, no list is returned, and the
    version after it is not exported. *)
Lemma export_versions_crash_aborts_batch :
  filter (selected Demo.env Demo.opts_all) Demo.versions_m0 = Demo.versions_m0
  /\ fst (_export_versions Demo.env Demo.versions_m0 "out" Demo.opts_all [])
     = Raise (OtherException "OSError")
  /\ ~ In (ExportRun "r1" "out/r1" false None)
          (snd (_export_versions Demo.env Demo.versions_m0 "out"
                  Demo.opts_all [])).
Proof.
  split; [reflexivity|]. split; [reflexivity|].
  vm_compute. intuition discriminate.
Qed.

(** C3, amended. A selected version whose export raises a
    [RestException] is caught in [_export_version], whatever the other
    versions do: the call returns, the success list is as before, and the
    failure list has one more record, with a message that tells
    [RESOURCE_DOES_NOT_EXIST] from the other error codes, the model name,
    the version, the run id and the payload of the exception; the loop of
    [_export_versions] then goes on with the versions that follow. When,
    besides, no selected version raises another kind of exception,
    [_export_versions] returns, and with [N] selected versions of which
    [K] fail there are [N - K] descriptors and [K] failure records, the
    records in the order of the listing. *)
Theorem export_versions_isolates_rest_failures (env : Env)
    (vs : list ModelVersion) (output_dir : string) (opts : Options)
    (t : trace) :
  let record := fun (vr : ModelVersion) (json : dict) =>
    [ ("message",
       VStr (if error_code_is json "RESOURCE_DOES_NOT_EXIST"
             then "Version run probably does not exist"
             else "Version cannot be exported"));
      ("model", VStr (name vr));
      ("version", VStr (version vr));
      ("run_id", VStr (run_id vr));
      ("RestException", VDict json) ] in
  let sel := filter (selected env opts) vs in
  let N := List.length sel in
  let K := List.length (filter (failed env output_dir opts) sel) in
  (forall vr json o f j n t',
      attempt env output_dir opts vr = Raise (RestException json) ->
      fst (_export_version env vr output_dir o f j n opts t')
      = Ok (o, f ++ [record vr json])
      /\ In (Log ERROR (MsgDict (record vr json)))
            (snd (_export_version env vr output_dir o f j n opts [])))
  /\ (forall j vr rest json o f n t',
         selected env opts vr = true ->
         attempt env output_dir opts vr = Raise (RestException json) ->
         for_each ((j, vr) :: rest)
           (export_versions_step env output_dir opts n) (o, f) t'
         = for_each rest (export_versions_step env output_dir opts n)
             (o, f ++ [record vr json])
             (snd (_export_version env vr output_dir o f j n opts t')))
  /\ (forallb (fun vr => negb (crashed env output_dir opts vr)) sel = true
      -> exists outs fails,
           fst (_export_versions env vs output_dir opts t)
           = Ok (outs, fails)
           /\ List.length outs = N - K
           /\ List.length fails = K
           /\ Permutation outs (descriptors env output_dir opts sel)
           /\ fails
              = flat_map
                  (fun vr =>
                     match attempt env output_dir opts vr with
                     | Raise (RestException json) => [record vr json]
                     | _ => []
                     end) sel).
Proof.
  intros record sel N K. split; [|split].
  - intros vr json o f j n t' Ha.
    rewrite !export_version_run, Ha. split; [reflexivity|].
    cbn [snd app]. unfold version_events. rewrite Ha.
    right. apply in_or_app. right. unfold failure_events. now left.
  - intros j vr rest json o f n t' Hsel Ha.
    cbn [for_each]. unfold bind at 1, export_versions_step at 1.
    unfold selected in Hsel. apply andb_true_iff in Hsel.
    destruct Hsel as [H1 H2]. apply negb_true_iff in H1, H2.
    rewrite H1, H2, export_version_run, Ha. reflexivity.
  - intros Hno.
    rewrite export_versions_run. fold sel.
    apply first_crash_None in Hno as Hfc. rewrite Hfc.
    destruct (sort_descriptors env output_dir opts sel) as [outs Hs].
    rewrite Hs. exists outs, (failure_records env output_dir opts sel).
    apply sort_by_version_spec in Hs. destruct Hs as [Hp _].
    pose proof (exported_or_failed env output_dir opts sel Hno) as Hsum.
    repeat split; auto.
    + rewrite (Permutation_length Hp), length_descriptors.
      unfold N, K. lia.
    + apply length_failure_records.
Qed.

Lemma export_versions_isolates_rest_failures_witness :
  exists outs fails,
    fst (_export_versions Demo.env Demo.versions_m1 "out" Demo.opts_all [])
    = Ok (outs, fails)
    /\ List.length outs = 3 - 1
    /\ List.length fails = 1
    /\ Permutation outs
         (descriptors Demo.env "out" Demo.opts_all Demo.versions_m1)
    /\ fails
       = [[ ("message", VStr "Version run probably does not exist");
            ("model", VStr "m1"); ("version", VStr "2");
            ("run_id", VStr "r2");
            ("RestException", VDict Demo.not_found) ]].
Proof.
  apply (export_versions_isolates_rest_failures Demo.env Demo.versions_m1
           "out" Demo.opts_all []).
  reflexivity.
Defined.

(** *** Version selection *)

Lemma for_each_selected (env : Env) (output_dir : string) (opts : Options)
    (n : nat) (jvs : list (nat * ModelVersion)) :
  forall acc t,
    for_each jvs (export_versions_step env output_dir opts n) acc t
    = for_each (filter (fun jvr => selected env opts (snd jvr)) jvs)
        (fun jvr acc =>
           _export_version env (snd jvr) output_dir (fst acc) (snd acc)
             (fst jvr) n opts) acc t.
Proof.
  induction jvs as [|[j vr] jvs IH]; intros [o f] t; [reflexivity|].
  cbn [for_each filter snd].
  assert (Hsel : selected env opts vr
                 = negb (skipped_by_stage env opts vr)
                   && negb (skipped_by_version opts vr)) by reflexivity.
  unfold bind at 1, export_versions_step at 1.
  destruct (skipped_by_stage env opts vr); cbn [negb andb] in Hsel.
  { rewrite Hsel. unfold ret. apply IH. }
  destruct (skipped_by_version opts vr); cbn [negb andb] in Hsel.
  { rewrite Hsel. unfold ret. apply IH. }
  rewrite Hsel. cbn [for_each fst snd]. unfold bind.
  destruct (_export_version _ _ _ _ _ _ _ _ _) as [[acc'|e] t']; auto.
Qed.

(** C5. With options in which the stage filter and the version filter
    are not both set, the loop of [_export_versions] calls
    [_export_version] on the selected versions and on no other, in the
    order of the listing. With both filters empty all the versions are
    selected; with a stage filter, exactly those whose lower-cased
    [current_stage] is in it; with a version filter, exactly those whose
    version identifier is in it. *)
Theorem export_versions_selects (env : Env) (vs : list ModelVersion)
    (opts : Options) :
  stages opts = [] \/ versions opts = [] ->
  (forall output_dir acc t,
      for_each (enumerate vs)
        (export_versions_step env output_dir opts (List.length vs)) acc t
      = for_each (filter (fun jvr => selected env opts (snd jvr)) (enumerate vs))
          (fun jvr acc =>
             _export_version env (snd jvr) output_dir (fst acc) (snd acc)
               (fst jvr) (List.length vs) opts) acc t)
  /\ (stages opts = [] -> versions opts = [] ->
      filter (selected env opts) vs = vs)
  /\ (stages opts <> [] ->
      filter (selected env opts) vs
      = filter (fun vr => str_in (str_lower env (current_stage vr))
                            (stages opts)) vs)
  /\ (versions opts <> [] ->
      filter (selected env opts) vs
      = filter (fun vr => str_in (version vr) (versions opts)) vs).
Proof.
  intros Hwf. split; [|split; [|split]].
  - intros. apply for_each_selected.
  - intros Hs Hv. unfold selected, skipped_by_stage, skipped_by_version.
    rewrite Hs, Hv. cbn. induction vs; cbn; congruence.
  - intros Hs. destruct Hwf as [Hwf | Hv]; [contradiction|].
    apply filter_ext. intros vr.
    unfold selected, skipped_by_stage, skipped_by_version. rewrite Hv.
    destruct (stages opts); [contradiction|]. cbn.
    now rewrite andb_true_r, negb_involutive.
  - intros Hv. destruct Hwf as [Hs | Hwf]; [|contradiction].
    apply filter_ext. intros vr.
    unfold selected, skipped_by_stage, skipped_by_version. rewrite Hs.
    destruct (versions opts); [contradiction|]. cbn.
    now rewrite negb_involutive.
Qed.

Lemma export_versions_selects_witness :
  filter (selected Demo.env Demo.opts_production) Demo.versions_m1
  = [Demo.mv "m1" "3" "Production" "r3"].
Proof.
  destruct (export_versions_selects Demo.env Demo.versions_m1
              Demo.opts_production)
    as [_ [_ [Hs _]]].
  - right. reflexivity.
  - rewrite Hs by discriminate. reflexivity.
Defined.

(** *** Every version ends in at most one list *)

Lemma NoDup_map_inj {A B} (g : A -> B) (l : list A) (x y : A) :
  NoDup (map g l) -> In x l -> In y l -> g x = g y -> x = y.
Proof.
  induction l as [|a l IH]; cbn [map]; intros Hnd Hx Hy Hg; [easy|].
  inversion Hnd as [|? ? Hnot Hnd']; subst.
  destruct Hx as [<-|Hx], Hy as [<-|Hy]; auto.
  - exfalso. apply Hnot. rewrite Hg. now apply in_map.
  - exfalso. apply Hnot. rewrite <- Hg. now apply in_map.
Qed.

Lemma in_exported_descriptors (env : Env) (output_dir : string)
    (opts : Options) (vs : list ModelVersion) (vr : ModelVersion) :
  in_exported vr (descriptors env output_dir opts vs)
  <-> exists vr', In vr' vs /\ exported env output_dir opts vr' = true
                  /\ name vr' = name vr /\ version vr' = version vr.
Proof.
  unfold in_exported, exported. split.
  - intros [d [Hd [Hn Hv]]]. apply descriptors_In in Hd.
    destruct Hd as [vr' [Hin Ha]]. exists vr'.
    destruct (attempt_identity _ _ _ _ _ Ha) as [Hn' [Hv' _]].
    rewrite Ha. repeat split; auto; congruence.
  - intros [vr' [Hin [Hex [Hn Hv]]]].
    destruct (attempt env output_dir opts vr') as [d|] eqn:Ha;
      [|discriminate].
    exists d. destruct (attempt_identity _ _ _ _ _ Ha) as [Hn' [Hv' _]].
    repeat split; try congruence.
    apply descriptors_In. eauto.
Qed.

Lemma in_failed_records (env : Env) (output_dir : string)
    (opts : Options) (vs : list ModelVersion) (vr : ModelVersion) :
  in_failed vr (failure_records env output_dir opts vs)
  <-> exists vr', In vr' vs /\ failed env output_dir opts vr' = true
                  /\ name vr' = name vr /\ version vr' = version vr.
Proof.
  unfold in_failed, failed. split.
  - intros [r [Hr [Hn Hv]]]. apply failure_records_In in Hr.
    destruct Hr as [vr' [json [Hin [Ha ->]]]]. exists vr'.
    rewrite Ha. cbn in Hn, Hv. repeat split; auto; congruence.
  - intros [vr' [Hin [Hf [Hn Hv]]]].
    destruct (attempt env output_dir opts vr') as [|[]] eqn:Ha;
      try discriminate.
    exists (failure_record vr' json). cbn. repeat split; try congruence.
    apply failure_records_In. eauto.
Qed.

(** The two lists, when [_export_versions] returns them, for a listing
    that names each version once. *)
Lemma export_versions_partitions_of_lists (env : Env) (vs : list ModelVersion)
    (output_dir : string) (opts : Options) (t : trace)
    (outs fails : list dict) :
  NoDup (map (fun vr => (name vr, version vr)) vs) ->
  fst (_export_versions env vs output_dir opts t) = Ok (outs, fails) ->
  List.length outs + List.length fails
  = List.length (filter (selected env opts) vs)
  /\ forall vr, In vr vs ->
       (selected env opts vr = false ->
        ~ in_exported vr outs /\ ~ in_failed vr fails)
       /\ (selected env opts vr = true ->
           (in_exported vr outs /\ ~ in_failed vr fails)
           \/ (~ in_exported vr outs /\ in_failed vr fails)).
Proof.
  intros Hnd Hrun. rewrite export_versions_run in Hrun. cbn [fst] in Hrun.
  set (sel := filter (selected env opts) vs) in *.
  destruct (first_crash env output_dir opts sel) eqn:Hfc; [discriminate|].
  destruct (sort_by_version (descriptors env output_dir opts sel))
    as [outs'|] eqn:Hs; [|discriminate].
  injection Hrun as -> <-.
  apply sort_by_version_spec in Hs. destruct Hs as [Hp _].
  apply first_crash_None in Hfc.
  assert (Hsame : forall vr vr', In vr vs -> In vr' sel ->
                    name vr' = name vr -> version vr' = version vr ->
                    vr' = vr).
  { intros vr vr' Hin Hin' Hn Hv. apply filter_In in Hin'.
    apply (NoDup_map_inj (fun vr => (name vr, version vr)) vs);
      try tauto. cbn. congruence. }
  assert (Hex : forall vr, In vr vs ->
                  (in_exported vr outs
                   <-> selected env opts vr = true
                       /\ exported env output_dir opts vr = true)).
  { intros vr Hin. split.
    - intros [d [Hd Hid]].
      assert (Hd' : in_exported vr (descriptors env output_dir opts sel)).
      { exists d. split; auto. eapply Permutation_in; eauto. }
      apply in_exported_descriptors in Hd'.
      destruct Hd' as [vr' [Hin' [He [Hn Hv]]]].
      assert (Heq : vr' = vr) by auto. subst vr'.
      apply filter_In in Hin'. tauto.
    - intros [Hsel He].
      assert (Hd' : in_exported vr (descriptors env output_dir opts sel)).
      { apply in_exported_descriptors. exists vr.
        repeat split; auto. apply filter_In. auto. }
      destruct Hd' as [d [Hd Hid]]. exists d. split; auto.
      eapply Permutation_in; [symmetry|]; eauto. }
  assert (Hfl : forall vr, In vr vs ->
                  (in_failed vr (failure_records env output_dir opts sel)
                   <-> selected env opts vr = true
                       /\ failed env output_dir opts vr = true)).
  { intros vr Hin. rewrite in_failed_records. split.
    - intros [vr' [Hin' [Hf [Hn Hv]]]].
      assert (Heq : vr' = vr) by auto. subst vr'.
      apply filter_In in Hin'. tauto.
    - intros [Hsel Hf]. exists vr. repeat split; auto.
      apply filter_In. auto. }
  split.
  - rewrite (Permutation_length Hp), length_descriptors,
      length_failure_records.
    now apply exported_or_failed.
  - intros vr Hin. rewrite (Hex vr Hin), (Hfl vr Hin). split.
    + intros Hsel. rewrite Hsel. split; intros [H _]; discriminate.
    + intros Hsel.
      assert (Hc : crashed env output_dir opts vr = false).
      { rewrite forallb_forall in Hfc.
        specialize (Hfc vr). apply negb_true_iff, Hfc, filter_In. auto. }
      unfold exported, failed, crashed in *.
      destruct (attempt env output_dir opts vr) as [|[]]; cbn in *;
        try discriminate.
      * left. split; auto. intros [_ H]. discriminate.
      * right. split; auto. intros [_ H]. discriminate.
Qed.

(** C9, as stated, fails. When the export of a selected version crashes,
    [_export_versions] returns no lists, so the selected versions are in
    neither of them; and when the listing names a version twice, with two
    stages, the entry that the stage filter excludes is found in the
    success list all the same, under the other entry. *)
Lemma export_versions_partition_fails :
  (filter (selected Demo.env Demo.opts_all) Demo.versions_m0
   = Demo.versions_m0
   /\ ~ exists outs fails,
          fst (_export_versions Demo.env Demo.versions_m0 "out"
                 Demo.opts_all []) = Ok (outs, fails))
  /\ (selected Demo.env Demo.opts_production Sample3.v1_archived = false
      /\ exists outs,
           fst (_export_versions Demo.env Sample3.versions_twice "out"
                  Demo.opts_production []) = Ok (outs, [])
           /\ in_exported Sample3.v1_archived outs).
Proof.
  split; split; try reflexivity.
  - intros [outs [fails H]]. vm_compute in H. discriminate.
  - eexists. split; [reflexivity|].
    eexists. split; [left; reflexivity|]. split; reflexivity.
Qed.

(** C9, amended. For a listing that names each version (model name and
    version identifier) once, and when no selected version raises
    anything but a [RestException], [_export_versions] returns its two
    lists, and: a version that a filter excludes is in neither list; a
    version that passes the filters is in exactly one of them; and the
    two lists together have one entry per version that passes the
    filters. *)
Theorem export_versions_partitions (env : Env) (vs : list ModelVersion)
    (output_dir : string) (opts : Options) (t : trace) :
  NoDup (map (fun vr => (name vr, version vr)) vs) ->
  forallb (fun vr => negb (crashed env output_dir opts vr))
    (filter (selected env opts) vs) = true ->
  exists outs fails,
    fst (_export_versions env vs output_dir opts t) = Ok (outs, fails)
    /\ List.length outs + List.length fails
       = List.length (filter (selected env opts) vs)
    /\ forall vr, In vr vs ->
         (selected env opts vr = false ->
          ~ in_exported vr outs /\ ~ in_failed vr fails)
         /\ (selected env opts vr = true ->
             (in_exported vr outs /\ ~ in_failed vr fails)
             \/ (~ in_exported vr outs /\ in_failed vr fails)).
Proof.
  intros Hnd Hno.
  assert (Hrun : exists outs fails,
             fst (_export_versions env vs output_dir opts t)
             = Ok (outs, fails)).
  { rewrite export_versions_run. cbn [fst].
    apply first_crash_None in Hno. rewrite Hno.
    destruct (sort_descriptors env output_dir opts
                (filter (selected env opts) vs)) as [outs ->]. eauto. }
  destruct Hrun as [outs [fails Hrun]]. exists outs, fails.
  split; [exact Hrun|].
  now apply (export_versions_partitions_of_lists env vs output_dir opts t).
Qed.

Lemma export_versions_partitions_witness :
  exists outs fails,
    fst (_export_versions Demo.env Demo.versions_m1 "out"
           Demo.opts_production []) = Ok (outs, fails)
    /\ List.length outs + List.length fails
       = List.length (filter (selected Demo.env Demo.opts_production)
                        Demo.versions_m1)
    /\ forall vr, In vr Demo.versions_m1 ->
         (selected Demo.env Demo.opts_production vr = false ->
          ~ in_exported vr outs /\ ~ in_failed vr fails)
         /\ (selected Demo.env Demo.opts_production vr = true ->
             (in_exported vr outs /\ ~ in_failed vr fails)
             \/ (~ in_exported vr outs /\ in_failed vr fails)).
Proof.
  apply (export_versions_partitions Demo.env Demo.versions_m1 "out"
           Demo.opts_production []).
  - repeat constructor; cbn; intuition discriminate.
  - reflexivity.
Defined.

(** *** The order of the descriptors *)

(** What the sort of [_export_versions] does give: the descriptors in the
    order of their version identifiers compared as strings. *)
Lemma export_versions_sorted_as_strings (env : Env)
    (vs : list ModelVersion) (output_dir : string) (opts : Options)
    (t : trace) (outs fails : list dict) :
  fst (_export_versions env vs output_dir opts t) = Ok (outs, fails) ->
  Sorted (fun d1 d2 => exists k1 k2,
            version_key d1 = Ok k1 /\ version_key d2 = Ok k2
            /\ String.leb k1 k2 = true) outs.
Proof.
  rewrite export_versions_run. cbn [fst].
  destruct (first_crash _ _ _ _); [discriminate|].
  destruct (sort_by_version _) as [outs'|] eqn:Hs; [|discriminate].
  intros H. injection H as <- _.
  now apply sort_by_version_spec in Hs.
Qed.

(** C4, the code at versions 9 and 10 of one model, both exported: the
    descriptor of version 10 comes before that of version 9, because the
    identifiers are compared as strings. *)
Theorem export_versions_puts_10_before_9 :
  exists outs,
    fst (_export_versions Demo.env Demo.versions_m10 "out" Demo.opts_all [])
    = Ok (outs, [])
    /\ map (dict_get "version") outs = [Some (VStr "10"); Some (VStr "9")]
    /\ map version_number ["10"; "9"] = [Some 10%N; Some 9%N]
    /\ String.ltb "10" "9" = true.
Proof.
  eexists. split; [reflexivity|]. repeat split.
Qed.

(** ** The summary written with the descriptor *)

Lemma attempt_events_no_write (env : Env) (output_dir : string)
    (opts : Options) (vr : ModelVersion) :
  Forall not_a_write (attempt_events env output_dir opts vr).
Proof.
  unfold attempt_events, export_version_try, bind, call, ret. cbn.
  destruct (export_run env _ _ _ _) as [[]|]; cbn;
    [|repeat constructor].
  destruct (get_run env _) as [run|]; cbn; [|repeat constructor].
  destruct (get_experiment env _) as [ex|]; cbn; [|repeat constructor].
  destruct (export_version_model opts); cbn; [|repeat constructor].
  destruct (model_utils_export_version_model env _ _); cbn;
    repeat constructor.
Qed.

Lemma versions_events_no_write (env : Env) (output_dir : string)
    (opts : Options) (n : nat) (jvs : list (nat * ModelVersion)) :
  Forall not_a_write (versions_events env output_dir opts n jvs).
Proof.
  induction jvs as [|[j vr] jvs IH]; cbn [versions_events];
    [constructor|].
  destruct (selected env opts vr); auto.
  apply Forall_app. split.
  - unfold version_events. constructor; [exact I|].
    apply Forall_app. split; [apply attempt_events_no_write|].
    destruct (attempt env output_dir opts vr) as [|[]];
      try constructor; [exact I|].
    unfold failure_events.
    destruct (error_code_is _ _); repeat constructor.
  - destruct (crashed env output_dir opts vr); auto.
Qed.

Lemma adjust_model_length (env : Env) (model : dict) (versions : list dict) :
  List.length (snd (_adjust_model env model versions))
  = List.length versions.
Proof.
  cbv beta zeta iota delta [_adjust_model dict_pop snd].
  apply length_map.
Qed.

Lemma not_a_write_counts (n : nat) (l : trace) :
  Forall not_a_write l -> Forall (counts_are n) l.
Proof.
  apply Forall_impl. intros [] H; cbn in *; tauto.
Qed.

Ltac trace_split :=
  cbn;
  repeat match goal with
         | |- Forall _ (_ ++ _) => apply Forall_app; split
         | |- Forall _ (_ :: _) => constructor
         | |- Forall _ [] => constructor
         | |- counts_are _ _ => cbn; auto
         end; auto.

Ltac trace_ok := solve [trace_split].

Ltac write_cases :=
  match goal with
  | |- context [write_export_file ?e ?o ?f ?m ?i] =>
      destruct (write_export_file e o f m i) as [[]|]
  end.

(** The part of [_export_model] after the versions are exported. *)
Lemma export_model_tail_counts (env : Env) (model_name output_dir : string)
    (opts : Options) (ori : list ModelVersion) (outs fails : list dict)
    (t : trace) :
  Forall (counts_are (List.length outs)) t ->
  Forall (counts_are (List.length outs))
    (snd (( '(model, versions) <-
              (if is_importing_into_databricks env
                  && export_permissions opts then
                 let params := [("name", VStr model_name)] in
                 model <- call (HttpGet "databricks/registered-models/get"
                                  params)
                            (http_get env
                               "databricks/registered-models/get" params) ;;
                 let '(model2, model) :=
                   dict_pop "registered_model_databricks" model in
                 model2 <- as_dict model2 ;;
                 let '(model2, versions) := _adjust_model env model2 outs in
                 id <- getitem "id" model2 ;;
                 permissions <- call (GetModelPermissions id)
                                  (get_model_permissions env id) ;;
                 let model2 := dict_set "permissions" permissions model2 in
                 ret (dict_set "registered_model" (VDict model2) model,
                      versions)
               else
                 let params := [("name", VStr model_name)] in
                 model <- call (HttpGet "registered-models/get" params)
                            (http_get env "registered-models/get" params) ;;
                 registered_model <- getitem "registered_model" model ;;
                 registered_model <- as_dict registered_model ;;
                 let '(registered_model, versions) :=
                   _adjust_model env registered_model outs in
                 ret (dict_set "registered_model" (VDict registered_model)
                        model, versions)) ;;
            let info_attr := info_attr_of opts versions fails in
            call (WriteExportFile output_dir "model.json" model info_attr)
              (write_export_file env output_dir "model.json" model
                 info_attr) ;;
            emit (Log INFO (MsgExported (List.length versions)
                              (List.length ori) (which_versions opts)
                              model_name))) t)).
Proof.
  intros Ht.
  unfold as_dict, getitem, dict_pop.
  unfold bind, call, emit, ret, raise.
  destruct (is_importing_into_databricks env && export_permissions opts).
  - destruct (http_get env _ _) as [model|]; [|trace_ok].
    destruct (dict_get_none "registered_model_databricks" model);
      try trace_ok.
    cbv beta iota zeta.
    pose proof (adjust_model_length env d outs) as Hlen.
    destruct (_adjust_model env d outs) as [model2 versions'].
    cbn [snd] in Hlen.
    destruct (dict_get "id" model2) as [id|]; [|trace_ok].
    destruct (get_model_permissions env id); [|trace_ok].
    cbv beta iota zeta.
    write_cases; trace_split; rewrite Hlen; auto.
  - destruct (http_get env _ _) as [model|]; [|trace_ok].
    destruct (dict_get "registered_model" model) as [rm|]; [|trace_ok].
    destruct rm; try trace_ok.
    cbv beta iota zeta.
    pose proof (adjust_model_length env d outs) as Hlen.
    destruct (_adjust_model env d outs) as [rm' versions'].
    cbn [snd] in Hlen. cbv beta iota zeta.
    write_cases; trace_split; rewrite Hlen; auto.
Qed.

Lemma export_model_trace_counts (env : Env) (model_name output_dir : string)
    (opts : Options) :
  match list_model_versions env model_name (export_latest_versions opts)
  with
  | Ok ori =>
      Forall (counts_are
                (List.length (filter (exported env output_dir opts)
                                (filter (selected env opts) ori))))
        (snd (_export_model env model_name output_dir opts []))
  | Raise _ =>
      Forall not_a_write
        (snd (_export_model env model_name output_dir opts []))
  end.
Proof.
  unfold _export_model, bind at 1, call at 1.
  destruct (list_model_versions env model_name _) as [ori|e];
    [|repeat constructor].
  unfold bind at 1, emit at 1. unfold bind at 1.
  rewrite export_versions_run.
  set (sel := filter (selected env opts) ori).
  assert (Hpre : forall n,
             Forall (counts_are n)
               ((([] ++ [ListModelVersions model_name
                           (export_latest_versions opts)])
                 ++ [Log INFO (MsgFound model_name (List.length ori)
                                 (which_versions opts))])
                ++ versions_events env output_dir opts (List.length ori)
                     (enumerate ori))).
  { intros n. trace_split.
    apply not_a_write_counts, versions_events_no_write. }
  destruct (first_crash env output_dir opts sel); [apply Hpre|].
  destruct (sort_by_version (descriptors env output_dir opts sel))
    as [outs|] eqn:Hs; [|apply Hpre].
  apply sort_by_version_spec in Hs. destruct Hs as [Hp _].
  rewrite <- length_descriptors, <- (Permutation_length Hp).
  apply export_model_tail_counts, Hpre.
Qed.

(** C10. Whenever [_export_model] writes the export file, the summary
    has the same number in [num_src_versions] and in [num_dst_versions]:
    the number of the listed versions that pass the filters and are
    exported. Versions that are filtered out or that fail are not
    counted. *)
Theorem export_model_summary_counts (env : Env)
    (model_name output_dir : string) (opts : Options)
    (dir file : string) (model info_attr : dict) :
  In (WriteExportFile dir file model info_attr)
     (snd (_export_model env model_name output_dir opts [])) ->
  exists ori,
    list_model_versions env model_name (export_latest_versions opts)
    = Ok ori
    /\ dict_get "num_src_versions" info_attr
       = Some (VInt (Z.of_nat
                       (List.length
                          (filter (exported env output_dir opts)
                             (filter (selected env opts) ori)))))
    /\ dict_get "num_dst_versions" info_attr
       = dict_get "num_src_versions" info_attr.
Proof.
  intros Hin.
  pose proof (export_model_trace_counts env model_name output_dir opts)
    as H.
  destruct (list_model_versions env model_name _) as [ori|e].
  - rewrite Forall_forall in H. specialize (H _ Hin). cbn in H.
    destruct H as [H1 H2]. exists ori. repeat split; congruence.
  - rewrite Forall_forall in H. specialize (H _ Hin). destruct H.
Qed.

Lemma export_model_summary_counts_witness :
  exists ori,
    list_model_versions Demo.env "m1" false = Ok ori
    /\ dict_get "num_src_versions" Demo.info_m1
       = Some (VInt (Z.of_nat
                       (List.length
                          (filter (exported Demo.env "out" Demo.opts_all)
                             (filter (selected Demo.env Demo.opts_all) ori)))))
    /\ dict_get "num_dst_versions" Demo.info_m1
       = dict_get "num_src_versions" Demo.info_m1.
Proof.
  apply (export_model_summary_counts Demo.env "m1" "out" Demo.opts_all
           "out" "model.json" Demo.model_m1 Demo.info_m1).
  vm_compute. tauto.
Defined.

(** Of the three versions of [m1], all selected, two are exported: the
    summary counts two. *)
Lemma export_model_summary_m1 :
  List.length Demo.versions_m1 = 3
  /\ List.length (filter (selected Demo.env Demo.opts_all) Demo.versions_m1) = 3
  /\ dict_get "num_src_versions" Demo.info_m1 = Some (VInt 2)
  /\ dict_get "num_dst_versions" Demo.info_m1 = Some (VInt 2).
Proof. repeat split. Qed.

(* ================================================================== *)
(** * Further properties of the code *)
(* ================================================================== *)

(** ** [_export_version] *)

(** X1. When the export of a version goes through, [_export_version]
    appends one descriptor and leaves the failure list alone. The
    descriptor is [dict(vr)] followed by [_run_artifact_uri] (from the run
    as fetched after the export), [_experiment_name] (of the experiment
    of that run) and, only when [export_version_model] is set,
    [_download_uri] (what [export_version_model] of [model_utils]
    returned). *)
Theorem export_version_appends_descriptor (env : Env) (vr : ModelVersion)
    (output_dir : string) (o f : list dict) (j n : nat) (opts : Options)
    (t : trace) (d : dict) :
  attempt env output_dir opts vr = Ok d ->
  fst (_export_version env vr output_dir o f j n opts t) = Ok (o ++ [d], f)
  /\ exists run ex,
       get_run env (run_id vr) = Ok run
       /\ get_experiment env (experiment_id run) = Ok ex
       /\ if export_version_model opts then
            exists uri,
              model_utils_export_version_model env vr output_dir = Ok uri
              /\ d = dict_of_version vr
                     ++ [ ("_run_artifact_uri", VStr (artifact_uri run));
                          ("_experiment_name", VStr (experiment_name ex));
                          ("_download_uri", uri) ]
          else
            d = dict_of_version vr
                ++ [ ("_run_artifact_uri", VStr (artifact_uri run));
                     ("_experiment_name", VStr (experiment_name ex)) ].
Proof.
  intros Ha. split.
  - rewrite export_version_run, Ha. reflexivity.
  - revert Ha.
    unfold attempt, export_version_try, bind, call, ret. cbn.
    destruct (export_run env _ _ _ _) as [[]|]; cbn; [|discriminate].
    destruct (get_run env _) as [run|]; cbn; [|discriminate].
    destruct (get_experiment env _) as [ex|] eqn:Eex; cbn; [|discriminate].
    destruct (export_version_model opts); cbn.
    + destruct (model_utils_export_version_model env _ _) as [uri|]; cbn;
        [|discriminate].
      intros H. injection H as <-. exists run, ex.
      split; [reflexivity|]. split; [exact Eex|].
      exists uri. split; reflexivity.
    + intros H. injection H as <-. exists run, ex.
      split; [reflexivity|]. split; [exact Eex|reflexivity].
Qed.

Lemma export_version_appends_descriptor_witness :
  fst (_export_version Demo.env Sample.v3 "out" [] [] 0 3 Demo.opts_all [])
  = Ok ([] ++ [Sample.descriptor_v3], [])
  /\ exists run ex,
       get_run Demo.env "r3" = Ok run
       /\ get_experiment Demo.env (experiment_id run) = Ok ex
       /\ Sample.descriptor_v3
          = dict_of_version Sample.v3
            ++ [ ("_run_artifact_uri", VStr (artifact_uri run));
                 ("_experiment_name", VStr (experiment_name ex)) ].
Proof.
  apply (export_version_appends_descriptor Demo.env Sample.v3 "out" [] []
           0 3 Demo.opts_all [] Sample.descriptor_v3).
  reflexivity.
Defined.

(** Which of the listed events a given one is. *)
Ltac event_cases :=
  repeat match goal with
         | H : In _ (_ :: _) |- _ => destruct H as [H|H]
         | H : In _ [] |- _ => destruct H
         | H : _ \/ _ |- _ => destruct H as [H|H]
         | H : False |- _ => destruct H
         end;
  repeat match goal with
         | H : @eq event _ _ |- _ =>
             first [discriminate H | injection H as ?; subst]
         end.

(** X2. The calls of one version's export come in a fixed order and stop
    at the first that raises. The run exporter is called first; when it
    raises, it is the only call and its exception is the outcome.
    Otherwise the run is fetched; when that raises, nothing is called
    after it. Otherwise the experiment of the run is fetched; when that
    raises, nothing is called after it. Otherwise the cached model is
    exported exactly when [export_version_model] is set, as the fourth
    and last call, and its exception, if any, is the outcome. The
    version has a descriptor only when every call that was made
    returned. *)
Theorem export_version_calls_in_order (env : Env) (output_dir : string)
    (opts : Options) (vr : ModelVersion) :
  let evs := attempt_events env output_dir opts vr in
  let res := attempt env output_dir opts vr in
  let e1 := export_run_event output_dir opts vr in
  let e2 := GetRun (run_id vr) in
  match export_run env (run_id vr) (path_join output_dir (run_id vr))
          (export_deleted_runs opts) (notebook_formats opts) with
  | Raise e => evs = [e1] /\ res = Raise e
  | Ok _ =>
      match get_run env (run_id vr) with
      | Raise e => evs = [e1; e2] /\ res = Raise e
      | Ok run =>
          let e3 := GetExperiment (experiment_id run) in
          match get_experiment env (experiment_id run) with
          | Raise e => evs = [e1; e2; e3] /\ res = Raise e
          | Ok _ =>
              if export_version_model opts then
                evs = [e1; e2; e3; ExportVersionModel vr output_dir]
                /\ match model_utils_export_version_model env vr
                           output_dir with
                   | Raise e => res = Raise e
                   | Ok _ => exists vr_dct, res = Ok vr_dct
                   end
              else evs = [e1; e2; e3] /\ exists vr_dct, res = Ok vr_dct
          end
      end
  end.
Proof.
  unfold attempt_events, attempt, export_run_event, export_version_try,
    bind, call, ret. cbn.
  destruct (export_run env _ _ _ _) as [[]|]; cbn; [|auto].
  destruct (get_run env _) as [run|]; cbn; [|auto].
  destruct (get_experiment env _) as [ex|]; cbn; [|auto].
  destruct (export_version_model opts); cbn; [|eauto].
  destruct (model_utils_export_version_model env _ _); cbn; eauto.
Qed.

(** ** [_export_versions]: what is exported, and in which order *)

Lemma attempt_events_export_runs (env : Env) (output_dir : string)
    (opts : Options) (vr : ModelVersion) :
  filter is_ExportRun (attempt_events env output_dir opts vr)
  = [export_run_event output_dir opts vr]
  /\ filter is_progress (attempt_events env output_dir opts vr) = [].
Proof.
  unfold attempt_events, export_run_event, export_version_try, bind, call,
    ret. cbn.
  destruct (export_run env _ _ _ _) as [[]|]; cbn; [|auto].
  destruct (get_run env _) as [run|]; cbn; [|auto].
  destruct (get_experiment env _) as [ex|]; cbn; [|auto].
  destruct (export_version_model opts); cbn; [|auto].
  destruct (model_utils_export_version_model env _ _); cbn; auto.
Qed.

Lemma version_events_export_run (env : Env) (output_dir : string)
    (opts : Options) (n j : nat) (vr : ModelVersion) :
  filter is_ExportRun (version_events env output_dir opts n j vr)
  = [export_run_event output_dir opts vr].
Proof.
  unfold version_events. cbn [filter is_ExportRun].
  rewrite filter_app.
  destruct (attempt_events_export_runs env output_dir opts vr) as [-> _].
  destruct (attempt env output_dir opts vr) as [|[]]; try reflexivity.
  unfold failure_events. destruct (error_code_is _ _); reflexivity.
Qed.

Lemma version_events_progress (env : Env) (output_dir : string)
    (opts : Options) (n j : nat) (vr : ModelVersion) :
  filter is_progress (version_events env output_dir opts n j vr)
  = [progress_event output_dir n (j, vr)].
Proof.
  unfold version_events, progress_event. cbn [filter is_progress fst snd].
  rewrite filter_app.
  destruct (attempt_events_export_runs env output_dir opts vr) as [_ ->].
  destruct (attempt env output_dir opts vr) as [|[]]; try reflexivity.
  unfold failure_events. destruct (error_code_is _ _); reflexivity.
Qed.

(** The events of one kind that the loop leaves, when each selected
    version leaves exactly one of them. *)
Lemma versions_events_filter (env : Env) (output_dir : string)
    (opts : Options) (n : nat) (p : event -> bool)
    (g : nat * ModelVersion -> event) :
  (forall j vr,
      filter p (version_events env output_dir opts n j vr) = [g (j, vr)]) ->
  forall jvs,
  exists rest,
    map g (filter (fun jvr => selected env opts (snd jvr)) jvs)
    = filter p (versions_events env output_dir opts n jvs) ++ rest
    /\ (first_crash env output_dir opts
          (filter (selected env opts) (map snd jvs)) = None -> rest = []).
Proof.
  intros Hone. induction jvs as [|[j vr] jvs [rest [IH1 IH2]]].
  - exists []. auto.
  - cbn [filter map snd versions_events].
    destruct (selected env opts vr); [|eauto].
    cbn [map first_crash]. rewrite filter_app, Hone.
    unfold crashed.
    destruct (attempt env output_dir opts vr) as [|e]; cbn [app].
    + exists rest. rewrite IH1. auto.
    + destruct e; cbn [is_RestException negb filter app];
        try (eexists; split; [reflexivity | discriminate]).
      exists rest. rewrite IH1. auto.
Qed.

Lemma map_snd_filter {A B} (p : B -> bool) (l : list (A * B)) :
  map snd (filter (fun x => p (snd x)) l) = filter p (map snd l).
Proof.
  induction l as [|[a b] l IH]; cbn; auto.
  destruct (p b); cbn; now rewrite IH.
Qed.

Lemma export_versions_trace (env : Env) (vs : list ModelVersion)
    (output_dir : string) (opts : Options) :
  snd (_export_versions env vs output_dir opts [])
  = versions_events env output_dir opts (List.length vs) (enumerate vs).
Proof. now rewrite export_versions_run. Qed.

(** X3. The run exporter is called for selected versions only, at most
    once for each, in the order of the listing, with the directory
    [output_dir]/[run_id], the deleted-runs flag and the notebook formats
    of the options; when no export crashes it is called for every selected
    version. *)
Theorem export_versions_calls_run_exporter (env : Env)
    (vs : list ModelVersion) (output_dir : string) (opts : Options) :
  exists rest,
    map (export_run_event output_dir opts) (filter (selected env opts) vs)
    = filter is_ExportRun (snd (_export_versions env vs output_dir opts []))
      ++ rest
    /\ (first_crash env output_dir opts (filter (selected env opts) vs) = None
        -> rest = []).
Proof.
  rewrite export_versions_trace.
  destruct (versions_events_filter env output_dir opts (List.length vs)
              is_ExportRun
              (fun jvr => export_run_event output_dir opts (snd jvr))
              (version_events_export_run env output_dir opts
                 (List.length vs))
              (enumerate vs)) as [rest [H1 H2]].
  exists rest. rewrite map_snd_enumerate in H2. split; auto.
  rewrite <- H1, <- (map_map snd (export_run_event output_dir opts)).
  now rewrite map_snd_filter, map_snd_enumerate.
Qed.

(** X4. The progress line of a selected version shows its position in the
    whole listing, counted from one, and the length of the whole listing:
    versions that the filters skip are counted too, so the numbers shown
    may have gaps and the total is not the number of versions exported. *)
Theorem export_versions_progress_counts_listing (env : Env)
    (vs : list ModelVersion) (output_dir : string) (opts : Options) :
  exists rest,
    map (progress_event output_dir (List.length vs))
      (filter (fun jvr => selected env opts (snd jvr)) (enumerate vs))
    = filter is_progress (snd (_export_versions env vs output_dir opts []))
      ++ rest
    /\ (first_crash env output_dir opts (filter (selected env opts) vs) = None
        -> rest = []).
Proof.
  rewrite export_versions_trace.
  destruct (versions_events_filter env output_dir opts (List.length vs)
              is_progress (progress_event output_dir (List.length vs))
              (fun j vr => version_events_progress env output_dir opts
                             (List.length vs) j vr)
              (enumerate vs)) as [rest [H1 H2]].
  exists rest. rewrite map_snd_enumerate in H2. auto.
Qed.

(** X5. When no version passes the filters, and so for an empty listing,
    [_export_versions] returns two empty lists and does nothing else: no
    log line, no call. *)
Theorem export_versions_nothing_selected (env : Env)
    (vs : list ModelVersion) (output_dir : string) (opts : Options)
    (t : trace) :
  filter (selected env opts) vs = [] ->
  _export_versions env vs output_dir opts t = (Ok ([], []), t).
Proof.
  intros Hsel. rewrite export_versions_run, Hsel. cbn.
  replace (versions_events env output_dir opts (List.length vs)
             (enumerate vs)) with (@nil event);
    [now rewrite app_nil_r|].
  assert (H : forall jvs, filter (selected env opts) (map snd jvs) = [] ->
                versions_events env output_dir opts (List.length vs) jvs
                = []).
  { induction jvs as [|[j vr] jvs IH]; cbn [map snd filter versions_events];
      auto.
    destruct (selected env opts vr); [discriminate|auto]. }
  symmetry. apply H. now rewrite map_snd_enumerate.
Qed.

Lemma export_versions_nothing_selected_witness :
  _export_versions Demo.env Demo.versions_m10 "out" Demo.opts_production []
  = (Ok ([], []), []).
Proof.
  apply (export_versions_nothing_selected Demo.env Demo.versions_m10 "out"
           Demo.opts_production []).
  reflexivity.
Defined.

(** ** [_export_model]: its outcomes *)

Lemma dict_get_none_VDict (k : string) (d rm : dict) :
  dict_get_none k d = VDict rm -> dict_get k d = Some (VDict rm).
Proof.
  unfold dict_get_none. destruct (dict_get k d); [congruence|discriminate].
Qed.

(** Every run of [_export_model] is one of the outcomes, whatever was
    done before. *)
Lemma export_model_outcome_from (env : Env) (model_name output_dir : string)
    (opts : Options) (t : trace) :
  exists r evs,
    _export_model env model_name output_dir opts t = (r, t ++ evs)
    /\ export_outcome env model_name output_dir opts r evs.
Proof.
  enough (H : forall P : result unit * trace -> Prop,
             (forall r evs,
                 export_outcome env model_name output_dir opts r evs ->
                 P (r, t ++ evs)) ->
             P (_export_model env model_name output_dir opts t)).
  { apply (H (fun x => exists r evs,
                  x = (r, t ++ evs)
                  /\ export_outcome env model_name output_dir opts r evs)).
    eauto. }
  intros P HP.
  unfold _export_model, bind at 1, call at 1.
  destruct (list_model_versions env model_name _) as [ori|e] eqn:Hl;
    [|apply HP; now apply ListingRaises].
  unfold bind at 1, emit at 1. unfold bind at 1.
  rewrite export_versions_run.
  destruct (first_crash env output_dir opts (filter (selected env opts) ori))
    as [e|] eqn:Hfc;
    [rewrite <- !app_assoc; apply HP;
     now apply (VersionCrashes _ _ _ _ ori)|].
  destruct (sort_descriptors env output_dir opts
              (filter (selected env opts) ori)) as [outs Hs].
  rewrite Hs.
  set (fails := failure_records env output_dir opts
                  (filter (selected env opts) ori)).
  set (pre := ((t ++ [ListModelVersions model_name
                         (export_latest_versions opts)])
               ++ [Log INFO (MsgFound model_name (List.length ori)
                               (which_versions opts))])
              ++ versions_events env output_dir opts (List.length ori)
                   (enumerate ori)).
  assert (Hpre : forall evs,
             t ++ ListModelVersions model_name (export_latest_versions opts)
             :: Log INFO (MsgFound model_name (List.length ori)
                            (which_versions opts))
             :: versions_events env output_dir opts (List.length ori)
                  (enumerate ori) ++ evs
             = pre ++ evs).
  { intros evs. unfold pre. now rewrite <- !app_assoc. }
  assert (Hout : forall r evs,
             tail_outcome env model_name output_dir opts (List.length ori)
               outs fails r evs ->
             P (r, pre ++ evs)).
  { intros r evs Ht. rewrite <- Hpre. apply HP.
    now apply (VersionsDone _ _ _ _ ori outs). }
  clearbody pre. clear Hpre.
  unfold as_dict, getitem, dict_pop.
  unfold bind, call, emit, ret, raise.
  pose proof (eq_refl (metadata_endpoint env opts)) as Hep.
  unfold metadata_endpoint at 2 in Hep.
  destruct (is_importing_into_databricks env && export_permissions opts)
    eqn:Hmode.
  - destruct (http_get env _ _) as [resp|e] eqn:Hh; rewrite <- Hep in Hh.
    2: { apply Hout. rewrite <- Hep. now apply FetchRaises. }
    destruct (dict_get_none "registered_model_databricks" resp)
      as [| | | | |rm] eqn:Hrm;
      try (apply Hout; rewrite <- Hep;
           apply (ResponseMalformed _ _ _ _ _ _ _ resp); auto).
    apply dict_get_none_VDict in Hrm.
    cbv beta iota zeta.
    destruct (_adjust_model env rm outs) as [model2 versions'] eqn:Hadj.
    destruct (dict_get "id" model2) as [id|] eqn:Hid.
    2: { apply Hout. rewrite <- Hep.
         apply (ResponseMalformed _ _ _ _ _ _ _ resp); auto. }
    destruct (get_model_permissions env id) as [perms|e] eqn:Hp.
    2: { rewrite <- app_assoc. apply Hout. rewrite <- Hep.
         now apply (PermissionsRaise _ _ _ _ _ _ _ resp). }
    cbv beta iota zeta.
    assert (Hasm : assembled env opts resp outs [GetModelPermissions id]
                     (dict_set "registered_model"
                        (VDict (dict_set "permissions" perms model2))
                        (dict_remove "registered_model_databricks" resp))
                     versions').
    { replace model2 with (fst (_adjust_model env rm outs))
        by now rewrite Hadj.
      replace versions' with (snd (_adjust_model env rm outs))
        by now rewrite Hadj.
      apply AssembledPermissions; auto. now rewrite Hadj. }
    destruct (write_export_file env output_dir "model.json" _ _)
      as [[]|e] eqn:Hw.
    + rewrite <- !app_assoc. apply Hout. rewrite <- Hep.
      now apply (Written _ _ _ _ _ _ _ resp [GetModelPermissions id]).
    + rewrite <- !app_assoc. apply Hout. rewrite <- Hep.
      now apply (WriteRaises _ _ _ _ _ _ _ resp [GetModelPermissions id]).
  - destruct (http_get env _ _) as [resp|e] eqn:Hh; rewrite <- Hep in Hh.
    2: { apply Hout. rewrite <- Hep. now apply FetchRaises. }
    destruct (dict_get "registered_model" resp) as [v|] eqn:Hrm.
    2: { apply Hout. rewrite <- Hep.
         apply (ResponseMalformed _ _ _ _ _ _ _ resp); auto. }
    destruct v as [| | | | |rm];
      try (apply Hout; rewrite <- Hep;
           apply (ResponseMalformed _ _ _ _ _ _ _ resp); auto).
    cbv beta iota zeta.
    destruct (_adjust_model env rm outs) as [rm' versions'] eqn:Hadj.
    cbv beta iota zeta.
    assert (Hasm : assembled env opts resp outs []
                     (dict_set "registered_model" (VDict rm') resp)
                     versions').
    { replace rm' with (fst (_adjust_model env rm outs))
        by now rewrite Hadj.
      replace versions' with (snd (_adjust_model env rm outs))
        by now rewrite Hadj.
      apply AssembledPlain; auto. }
    destruct (write_export_file env output_dir "model.json" _ _)
      as [[]|e] eqn:Hw.
    + rewrite <- !app_assoc. apply Hout. rewrite <- Hep.
      now apply (Written _ _ _ _ _ _ _ resp []).
    + rewrite <- !app_assoc. apply Hout. rewrite <- Hep.
      now apply (WriteRaises _ _ _ _ _ _ _ resp []).
Qed.

Lemma export_model_outcome (env : Env) (model_name output_dir : string)
    (opts : Options) :
  export_outcome env model_name output_dir opts
    (fst (_export_model env model_name output_dir opts []))
    (snd (_export_model env model_name output_dir opts [])).
Proof.
  destruct (export_model_outcome_from env model_name output_dir opts [])
    as [r [evs [-> H]]].
  exact H.
Qed.

Lemma attempt_events_kind (env : Env) (output_dir : string)
    (opts : Options) (vr : ModelVersion) :
  Forall of_version_export (attempt_events env output_dir opts vr).
Proof.
  unfold attempt_events, export_version_try, bind, call, ret. cbn.
  destruct (export_run env _ _ _ _) as [[]|]; cbn;
    [|repeat constructor].
  destruct (get_run env _) as [run|]; cbn; [|repeat constructor].
  destruct (get_experiment env _) as [ex|]; cbn; [|repeat constructor].
  destruct (export_version_model opts); cbn; [|repeat constructor].
  destruct (model_utils_export_version_model env _ _); cbn;
    repeat constructor.
Qed.

Lemma versions_events_kind (env : Env) (output_dir : string)
    (opts : Options) (n : nat) (jvs : list (nat * ModelVersion)) :
  Forall of_version_export (versions_events env output_dir opts n jvs).
Proof.
  induction jvs as [|[j vr] jvs IH]; cbn [versions_events];
    [constructor|].
  destruct (selected env opts vr); auto.
  apply Forall_app. split.
  - unfold version_events. constructor; [exact I|].
    apply Forall_app. split; [apply attempt_events_kind|].
    destruct (attempt env output_dir opts vr) as [|[]];
      try constructor; [exact I|].
    unfold failure_events.
    destruct (error_code_is _ _); repeat constructor.
  - destruct (crashed env output_dir opts vr); auto.
Qed.

Lemma filter_is_write_kind (l : trace) :
  Forall of_version_export l -> filter is_write l = [].
Proof.
  induction 1 as [|ev l Hev _ IH]; cbn; auto.
  destruct ev; cbn in *; auto; contradiction.
Qed.

Lemma assembled_calls (env : Env) (opts : Options) (resp : dict)
    (outs : list dict) (mid : trace) (doc : dict) (versions : list dict) :
  assembled env opts resp outs mid doc versions ->
  mid = []
  \/ (is_importing_into_databricks env && export_permissions opts = true
      /\ exists id, mid = [GetModelPermissions id]).
Proof. destruct 1; eauto. Qed.

(** The files written in an outcome of [_export_model]. *)
Lemma export_outcome_writes (env : Env) (model_name output_dir : string)
    (opts : Options) (r : result unit) (tr : trace) :
  export_outcome env model_name output_dir opts r tr ->
  (filter is_write tr = [] /\ is_Ok r = false)
  \/ exists doc info_attr,
       filter is_write tr
       = [WriteExportFile output_dir "model.json" doc info_attr]
       /\ r = write_export_file env output_dir "model.json" doc info_attr.
Proof.
  intros [e Hl | ori e Hl Hfc | ori outs r' evs Hl Hfc Hs Ht].
  - left. auto.
  - left. cbn [filter is_write].
    rewrite filter_is_write_kind by apply versions_events_kind. auto.
  - cbn [filter is_write]. rewrite filter_app.
    rewrite filter_is_write_kind by apply versions_events_kind.
    cbn [app].
    destruct Ht as [e Hh | resp e Hh He | resp id e Hm Hh Hp
                   | resp mid doc vs e Hh Ha Hw | resp mid doc vs Hh Ha Hw];
      try (left; split; reflexivity).
    + right. exists doc, (info_attr_of opts vs
                            (failure_records env output_dir opts
                               (filter (selected env opts) ori))).
      rewrite Hw. split; [|reflexivity].
      cbn [filter is_write]. rewrite filter_app.
      destruct (assembled_calls _ _ _ _ _ _ _ Ha) as [-> | [_ [id ->]]];
        reflexivity.
    + right. exists doc, (info_attr_of opts vs
                            (failure_records env output_dir opts
                               (filter (selected env opts) ori))).
      rewrite Hw. split; [|reflexivity].
      cbn [filter is_write]. rewrite filter_app.
      destruct (assembled_calls _ _ _ _ _ _ _ Ha) as [-> | [_ [id ->]]];
        reflexivity.
Qed.

(** X7. [_export_model] writes at most one file, and only [model.json] in
    [output_dir]. When it writes none it raises; when it writes one, its
    result is that of the writer: it returns if the file was written and
    raises the writer's exception otherwise. *)
Theorem export_model_writes_model_json (env : Env)
    (model_name output_dir : string) (opts : Options) :
  let r := fst (_export_model env model_name output_dir opts []) in
  let tr := snd (_export_model env model_name output_dir opts []) in
  (filter is_write tr = [] /\ is_Ok r = false)
  \/ exists doc info_attr,
       filter is_write tr
       = [WriteExportFile output_dir "model.json" doc info_attr]
       /\ r = write_export_file env output_dir "model.json" doc info_attr.
Proof.
  cbv zeta.
  apply (export_outcome_writes env model_name output_dir opts).
  apply export_model_outcome.
Qed.

(** The written file, when there is one, and where its parts come from. *)
Lemma export_model_write_inv (env : Env) (model_name output_dir : string)
    (opts : Options) (dir file : string) (doc info_attr : dict) :
  In (WriteExportFile dir file doc info_attr)
     (snd (_export_model env model_name output_dir opts [])) ->
  exists ori outs resp mid versions,
    list_model_versions env model_name (export_latest_versions opts)
    = Ok ori
    /\ sort_by_version
         (descriptors env output_dir opts (filter (selected env opts) ori))
       = Ok outs
    /\ http_get env (metadata_endpoint env opts) [("name", VStr model_name)]
       = Ok resp
    /\ assembled env opts resp outs mid doc versions
    /\ dir = output_dir /\ file = "model.json"
    /\ info_attr
       = info_attr_of opts versions
           (failure_records env output_dir opts
              (filter (selected env opts) ori)).
Proof.
  intros Hin.
  assert (Hno : forall l, Forall of_version_export l ->
                  ~ In (WriteExportFile dir file doc info_attr) l).
  { intros l Hl H. rewrite Forall_forall in Hl. exact (Hl _ H). }
  destruct (export_model_outcome env model_name output_dir opts)
    as [e Hl | ori e Hl Hfc | ori outs r evs Hl Hfc Hs Ht].
  - event_cases.
  - destruct Hin as [H|[H|H]]; try discriminate.
    now apply Hno in H; [|apply versions_events_kind].
  - destruct Hin as [H|[H|H]]; try discriminate.
    apply in_app_or in H. destruct H as [H|H].
    { now apply Hno in H; [|apply versions_events_kind]. }
    destruct Ht as [e Hh | resp e Hh He | resp id e Hm Hh Hp
                   | resp mid doc' vs e Hh Ha Hw
                   | resp mid doc' vs Hh Ha Hw];
      try (event_cases; fail).
    + destruct H as [H|H]; [discriminate|].
      apply in_app_or in H. destruct H as [H|H].
      { destruct (assembled_calls _ _ _ _ _ _ _ Ha) as [-> | [_ [id ->]]];
          event_cases. }
      event_cases. exists ori, outs, resp, mid, vs. auto 10.
    + destruct H as [H|H]; [discriminate|].
      apply in_app_or in H. destruct H as [H|H].
      { destruct (assembled_calls _ _ _ _ _ _ _ Ha) as [-> | [_ [id ->]]];
          event_cases. }
      event_cases. exists ori, outs, resp, mid, vs. auto 10.
Qed.

(** X8. The summary written with the model lists, under
    [failed_versions], the failure records of the selected versions whose
    export raised a [RestException], in the order of the listing; its
    [num_target_stages] and [num_target_versions] are the sizes of the two
    filters; it repeats the two flags; and it has no other field than
    these and the two counts of versions. *)
Theorem export_model_summary_fields (env : Env)
    (model_name output_dir : string) (opts : Options)
    (dir file : string) (doc info_attr : dict) :
  In (WriteExportFile dir file doc info_attr)
     (snd (_export_model env model_name output_dir opts [])) ->
  exists ori,
    list_model_versions env model_name (export_latest_versions opts)
    = Ok ori
    /\ dict_get "failed_versions" info_attr
       = Some (VList (map VDict
                        (failure_records env output_dir opts
                           (filter (selected env opts) ori))))
    /\ dict_get "num_target_stages" info_attr
       = Some (VInt (Z.of_nat (List.length (stages opts))))
    /\ dict_get "num_target_versions" info_attr
       = Some (VInt (Z.of_nat (List.length (versions opts))))
    /\ dict_get "export_latest_versions" info_attr
       = Some (VBool (export_latest_versions opts))
    /\ dict_get "export_permissions" info_attr
       = Some (VBool (export_permissions opts))
    /\ keys info_attr
       = [ "num_target_stages"; "num_target_versions"; "num_src_versions";
           "num_dst_versions"; "failed_versions"; "export_latest_versions";
           "export_permissions" ].
Proof.
  intros Hin. apply export_model_write_inv in Hin.
  destruct Hin as [ori [outs [resp [mid [vs [Hl [_ [_ [_ [_ [_ ->]]]]]]]]]]].
  exists ori. repeat split; auto.
Qed.

Lemma export_model_summary_fields_witness :
  exists ori,
    list_model_versions Demo.env "m1" false = Ok ori
    /\ dict_get "failed_versions" Demo.info_m1
       = Some (VList (map VDict
                        (failure_records Demo.env "out" Demo.opts_all
                           (filter (selected Demo.env Demo.opts_all) ori))))
    /\ dict_get "num_target_stages" Demo.info_m1 = Some (VInt 0)
    /\ dict_get "num_target_versions" Demo.info_m1 = Some (VInt 0)
    /\ dict_get "export_latest_versions" Demo.info_m1 = Some (VBool false)
    /\ dict_get "export_permissions" Demo.info_m1 = Some (VBool false)
    /\ keys Demo.info_m1
       = [ "num_target_stages"; "num_target_versions"; "num_src_versions";
           "num_dst_versions"; "failed_versions"; "export_latest_versions";
           "export_permissions" ].
Proof.
  apply (export_model_summary_fields Demo.env "m1" "out" Demo.opts_all
           "out" "model.json" Demo.model_m1 Demo.info_m1).
  vm_compute. tauto.
Defined.

(** X9. [_export_model] fetches the model's metadata from
    [databricks/registered-models/get] when permissions are exported into
    Databricks and from [registered-models/get] otherwise, with the model
    name as the only parameter, and it asks for the permissions in the
    first case only. *)
Theorem export_model_metadata_calls (env : Env)
    (model_name output_dir : string) (opts : Options) :
  Forall (metadata_call_ok env opts model_name)
    (snd (_export_model env model_name output_dir opts [])).
Proof.
  assert (Hk : forall l, Forall of_version_export l ->
                 Forall (metadata_call_ok env opts model_name) l).
  { intros l. apply Forall_impl. intros []; cbn; tauto. }
  destruct (export_model_outcome env model_name output_dir opts)
    as [e Hl | ori e Hl Hfc | ori outs r evs Hl Hfc Hs Ht].
  - repeat constructor.
  - repeat constructor. apply Hk, versions_events_kind.
  - repeat constructor. apply Forall_app. split.
    { apply Hk, versions_events_kind. }
    destruct Ht as [e Hh | resp e Hh He | resp id e Hm Hh Hp
                   | resp mid doc vs e Hh Ha Hw | resp mid doc vs Hh Ha Hw];
      try (repeat constructor; cbn; auto; fail).
    + constructor; [cbn; auto|]. apply Forall_app. split.
      * destruct (assembled_calls _ _ _ _ _ _ _ Ha) as [-> | [Hm [id ->]]];
          repeat constructor; auto.
      * repeat constructor.
    + constructor; [cbn; auto|]. apply Forall_app. split.
      * destruct (assembled_calls _ _ _ _ _ _ _ Ha) as [-> | [Hm [id ->]]];
          repeat constructor; auto.
      * repeat constructor.
Qed.

Lemma adjust_model_fields (env : Env) (rm : dict) (outs : list dict) :
  let rm' := fst (_adjust_model env rm outs) in
  let versions := snd (_adjust_model env rm outs) in
  dict_get "versions" rm' = Some (VList (map VDict versions))
  /\ dict_get "latest_versions" rm' = None
  /\ Forall2 (timestamps_added env) outs versions
  /\ forall k, ~ In k assembled_keys -> dict_get k rm' = dict_get k rm.
Proof.
  cbv zeta. rewrite adjust_model_unfold. cbn [fst snd].
  split; [|split; [|split]].
  - rewrite dict_get_remove_other by discriminate.
    apply dict_get_set_same.
  - apply dict_get_remove_same.
  - rewrite (adjust_model_versions_indep env rm []).
    apply adjust_versions_added.
  - intros k Hk. unfold assembled_keys in Hk. cbn [In] in Hk.
    rewrite dict_get_remove_other, dict_get_set_other
      by intuition congruence.
    assert (H2 : dict_get k (dict_remove "tags"
                   (_adjust_timestamp env
                      (_adjust_timestamp env rm "creation_timestamp")
                      "last_updated_timestamp")) = dict_get k rm).
    { rewrite dict_get_remove_other by intuition congruence.
      unfold _adjust_timestamp.
      rewrite !dict_get_set_other; auto; cbn; intuition congruence. }
    destruct (truthy _); [|exact H2].
    rewrite dict_get_set_other by intuition congruence. exact H2.
Qed.

(** X10. The document written by [_export_model] is the response of the
    metadata fetch with the adjusted model under [registered_model] and
    its other fields untouched. The adjusted model has the updated
    descriptors, in their sorted order, under [versions], no
    [latest_versions], and the fields of the fetched model that
    [_adjust_model] does not handle. In the permission mode the model is
    the one fetched under [registered_model_databricks], that key is not
    in the document, and the model has under [permissions] what the
    permission service returned for its [id]. *)
Theorem export_model_document (env : Env) (model_name output_dir : string)
    (opts : Options) (dir file : string) (doc info_attr : dict) :
  In (WriteExportFile dir file doc info_attr)
     (snd (_export_model env model_name output_dir opts [])) ->
  exists ori outs resp rm rm' versions,
    list_model_versions env model_name (export_latest_versions opts)
    = Ok ori
    /\ sort_by_version
         (descriptors env output_dir opts (filter (selected env opts) ori))
       = Ok outs
    /\ http_get env (metadata_endpoint env opts) [("name", VStr model_name)]
       = Ok resp
    /\ dict_get "registered_model" doc = Some (VDict rm')
    /\ dict_get "versions" rm' = Some (VList (map VDict versions))
    /\ Forall2 (timestamps_added env) outs versions
    /\ dict_get "latest_versions" rm' = None
    /\ (forall k, ~ In k assembled_keys -> k <> "permissions" ->
                  dict_get k rm' = dict_get k rm)
    /\ if is_importing_into_databricks env && export_permissions opts then
         dict_get "registered_model_databricks" resp = Some (VDict rm)
         /\ dict_get "registered_model_databricks" doc = None
         /\ (forall k, k <> "registered_model" ->
                       k <> "registered_model_databricks" ->
                       dict_get k doc = dict_get k resp)
         /\ exists id permissions,
              dict_get "id" rm = Some id
              /\ get_model_permissions env id = Ok permissions
              /\ dict_get "permissions" rm' = Some permissions
       else
         dict_get "registered_model" resp = Some (VDict rm)
         /\ (forall k, k <> "registered_model" ->
                       dict_get k doc = dict_get k resp)
         /\ dict_get "permissions" rm' = dict_get "permissions" rm.
Proof.
  intros Hin. apply export_model_write_inv in Hin.
  destruct Hin as [ori [outs [resp [mid [vs [Hl [Hs [Hh [Ha _]]]]]]]]].
  destruct Ha as [rm Hm Hrm | rm id perms Hm Hrm Hid Hp];
    destruct (adjust_model_fields env rm outs) as [Hv [Hlv [Hts Hother]]];
    rewrite Hm.
  - exists ori, outs, resp, rm, (fst (_adjust_model env rm outs)),
      (snd (_adjust_model env rm outs)).
    repeat split; auto.
    + apply dict_get_set_same.
    + intros k Hk. now apply dict_get_set_other.
    + apply Hother. unfold assembled_keys. cbn. intuition discriminate.
  - exists ori, outs, resp, rm,
      (dict_set "permissions" perms (fst (_adjust_model env rm outs))),
      (snd (_adjust_model env rm outs)).
    repeat split; auto.
    + apply dict_get_set_same.
    + now rewrite dict_get_set_other by discriminate.
    + now rewrite dict_get_set_other by discriminate.
    + intros k Hk Hkp. rewrite dict_get_set_other by assumption. auto.
    + rewrite dict_get_set_other by discriminate.
      apply dict_get_remove_same.
    + intros k H1 H2.
      now rewrite dict_get_set_other, dict_get_remove_other by assumption.
    + exists id, perms. repeat split; auto.
      * rewrite <- Hid. symmetry. apply Hother.
        unfold assembled_keys. cbn. intuition discriminate.
      * apply dict_get_set_same.
Qed.

Lemma export_model_document_witness :
  exists ori outs resp rm rm' versions,
    list_model_versions Demo.env "m1" false = Ok ori
    /\ sort_by_version
         (descriptors Demo.env "out" Demo.opts_all
            (filter (selected Demo.env Demo.opts_all) ori)) = Ok outs
    /\ http_get Demo.env (metadata_endpoint Demo.env Demo.opts_all)
         [("name", VStr "m1")] = Ok resp
    /\ dict_get "registered_model" Demo.model_m1 = Some (VDict rm')
    /\ dict_get "versions" rm' = Some (VList (map VDict versions))
    /\ Forall2 (timestamps_added Demo.env) outs versions
    /\ dict_get "latest_versions" rm' = None
    /\ (forall k, ~ In k assembled_keys -> k <> "permissions" ->
                  dict_get k rm' = dict_get k rm)
    /\ dict_get "registered_model" resp = Some (VDict rm)
    /\ (forall k, k <> "registered_model" ->
                  dict_get k Demo.model_m1 = dict_get k resp)
    /\ dict_get "permissions" rm' = dict_get "permissions" rm.
Proof.
  destruct (export_model_document Demo.env "m1" "out" Demo.opts_all
              "out" "model.json" Demo.model_m1 Demo.info_m1)
    as [ori [outs [resp [rm [rm' [vs H]]]]]].
  - vm_compute. tauto.
  - exists ori, outs, resp, rm, rm', vs. cbn in H. tauto.
Defined.

(** ** [export_model]: what its result tells *)

Lemma stage_warnings_kind (l : list string) :
  Forall of_version_export (stage_warnings l).
Proof.
  unfold stage_warnings. apply Forall_forall. intros ev Hev.
  apply in_map_iff in Hev. destruct Hev as [s [<- _]]. exact I.
Qed.

(** X11. With at most one of the two filters set, [export_model] returns
    [True] exactly when [model.json] was written: it returns [(True,
    model_name)] after the one successful write of the call, and [(False,
    model_name)] when nothing was written or the writer raised. It never
    writes a second file. *)
Theorem export_model_true_iff_written (env : Env)
    (model_name output_dir : string) (stages : stages_param)
    (versions : option (list string))
    (latest version_model permissions deleted : bool)
    (formats : option (list string)) :
  (List.length (map (str_lower env) (tokens_of stages)) = 0
   \/ List.length (versions_of versions) = 0)%nat ->
  let r := fst (export_model env model_name output_dir stages versions
                  latest version_model permissions deleted formats []) in
  let tr := snd (export_model env model_name output_dir stages versions
                   latest version_model permissions deleted formats []) in
  (r = Ok (true, model_name)
   /\ exists doc info_attr,
        filter is_write tr
        = [WriteExportFile output_dir "model.json" doc info_attr]
        /\ write_export_file env output_dir "model.json" doc info_attr
           = Ok tt)
  \/ (r = Ok (false, model_name)
      /\ (filter is_write tr = []
          \/ exists doc info_attr e,
               filter is_write tr
               = [WriteExportFile output_dir "model.json" doc info_attr]
               /\ write_export_file env output_dir "model.json" doc
                    info_attr = Raise e)).
Proof.
  intros H. cbv zeta. rewrite export_model_unfold.
  replace ((0 <? List.length (map (str_lower env) (tokens_of stages)))%nat
           && (0 <? List.length (versions_of versions))%nat) with false
    by (symmetry; apply andb_false_iff;
        destruct H as [H | H]; rewrite H; auto).
  set (opts := Build_Options _ _ _ _ _ _ _).
  set (t1 := [] ++ stage_warnings (map (str_lower env) (tokens_of stages))).
  assert (Ht1 : filter is_write t1 = []).
  { apply filter_is_write_kind. unfold t1. cbn [app].
    apply stage_warnings_kind. }
  destruct (export_model_outcome_from env model_name output_dir opts t1)
    as [r [evs [Heq Hout]]].
  rewrite Heq. apply export_outcome_writes in Hout.
  assert (Hlogs : forall l, Forall of_version_export l ->
                    filter is_write ((t1 ++ evs) ++ l)
                    = filter is_write evs).
  { intros l Hl. rewrite !filter_app, Ht1.
    rewrite (filter_is_write_kind l Hl). cbn. apply app_nil_r. }
  assert (Hevs : filter is_write (t1 ++ evs) = filter is_write evs)
    by (rewrite filter_app, Ht1; reflexivity).
  destruct r as [[]|e].
  - left. cbn [fst snd]. split; [reflexivity|].
    destruct Hout as [[_ Hf] | [doc [info [Hw Hr]]]]; [discriminate|].
    exists doc, info. rewrite Hevs. auto.
  - right.
    assert (Hfinal :
              filter is_write (t1 ++ evs) = []
              \/ exists doc info_attr e',
                   filter is_write (t1 ++ evs)
                   = [WriteExportFile output_dir "model.json" doc info_attr]
                   /\ write_export_file env output_dir "model.json" doc
                        info_attr = Raise e').
    { rewrite Hevs.
      destruct Hout as [[Hn _] | [doc [info [Hw Hr]]]]; [now left|].
      right. exists doc, info, e. auto. }
    destruct e; cbn [fst snd];
      try (split; [reflexivity|];
           rewrite Hlogs by (repeat constructor);
           rewrite <- Hevs; exact Hfinal).
    split; [reflexivity|].
    unfold bind, emit, ret.
    destruct (error_code_is json "RESOURCE_DOES_NOT_EXIST"); cbn [snd].
    + rewrite Hlogs by (repeat constructor).
      rewrite <- Hevs. exact Hfinal.
    + rewrite <- app_assoc.
      rewrite Hlogs by (repeat constructor).
      rewrite <- Hevs. exact Hfinal.
Qed.

Lemma export_model_true_iff_written_witness :
  (fst (export_model Demo.env "m1" "out" StagesNone None false false false
          false None []) = Ok (true, "m1")
   /\ exists doc info_attr,
        filter is_write
          (snd (export_model Demo.env "m1" "out" StagesNone None false
                  false false false None []))
        = [WriteExportFile "out" "model.json" doc info_attr]
        /\ write_export_file Demo.env "out" "model.json" doc info_attr
           = Ok tt)
  \/ (fst (export_model Demo.env "m1" "out" StagesNone None false false
             false false None []) = Ok (false, "m1")
      /\ (filter is_write
            (snd (export_model Demo.env "m1" "out" StagesNone None false
                    false false false None [])) = []
          \/ exists doc info_attr e,
               filter is_write
                 (snd (export_model Demo.env "m1" "out" StagesNone None
                         false false false false None []))
               = [WriteExportFile "out" "model.json" doc info_attr]
               /\ write_export_file Demo.env "out" "model.json" doc
                    info_attr = Raise e)).
Proof.
  apply (export_model_true_iff_written Demo.env "m1" "out" StagesNone None
           false false false false None).
  left. reflexivity.
Defined.

(** X12. The stage filter of [export_model] is read without regard to
    letter case and to its form: two filters with the same lower-cased
    tokens, given as a comma-joined string or as a sequence, make the same
    export, with the same result and the same effects. *)
Theorem export_model_stage_filter_case (env : Env)
    (model_name output_dir : string) (stages stages' : stages_param)
    (versions : option (list string))
    (latest version_model permissions deleted : bool)
    (formats : option (list string)) (t : trace) :
  map (str_lower env) (tokens_of stages)
  = map (str_lower env) (tokens_of stages') ->
  export_model env model_name output_dir stages versions latest
    version_model permissions deleted formats t
  = export_model env model_name output_dir stages' versions latest
      version_model permissions deleted formats t.
Proof.
  intros H. rewrite !export_model_unfold. cbv zeta. now rewrite H.
Qed.

Lemma export_model_stage_filter_case_witness :
  export_model Demo.env "m1" "out" (StagesStr "PRODUCTION,staging") None
    false false false false None []
  = export_model Demo.env "m1" "out" (StagesSeq ["Production"; "Staging"])
      None false false false false None [].
Proof.
  apply (export_model_stage_filter_case Demo.env "m1" "out"
           (StagesStr "PRODUCTION,staging")
           (StagesSeq ["Production"; "Staging"]) None
           false false false false None []).
  reflexivity.
Defined.

(** ** The order of the success list *)

Lemma decimal_acc (s : string) :
  forall acc,
    decimal acc s
    = match decimal 0 s with
      | Some m => Some (acc * 10 ^ N.of_nat (String.length s) + m)%N
      | None => None
      end.
Proof.
  induction s as [|c s IH]; intros acc.
  - cbn. f_equal. lia.
  - cbn [decimal String.length].
    destruct ((48 <=? N_of_ascii c)%N && (N_of_ascii c <=? 57)%N);
      [|reflexivity].
    rewrite IH, (IH (0 * 10 + (N_of_ascii c - 48))%N).
    destruct (decimal 0 s) as [m|]; [|reflexivity].
    f_equal. rewrite Nat2N.inj_succ, N.pow_succ_r'. lia.
Qed.

Lemma decimal_cons (c : ascii) (s : string) (n : N) :
  decimal 0 (String c s) = Some n ->
  (48 <= N_of_ascii c <= 57)%N
  /\ exists m, decimal 0 s = Some m
               /\ n = ((N_of_ascii c - 48)
                       * 10 ^ N.of_nat (String.length s) + m)%N.
Proof.
  cbn [decimal].
  destruct ((48 <=? N_of_ascii c)%N && (N_of_ascii c <=? 57)%N) eqn:E;
    [|discriminate].
  apply andb_true_iff in E. destruct E as [E1 E2].
  apply N.leb_le in E1, E2.
  rewrite decimal_acc. destruct (decimal 0 s) as [m|]; [|discriminate].
  intros H. injection H as <-. split; [lia|]. exists m. split; auto.
Qed.

Lemma decimal_bound (s : string) :
  forall n, decimal 0 s = Some n ->
            (n < 10 ^ N.of_nat (String.length s))%N.
Proof.
  induction s as [|c s IH]; intros n H.
  - cbn in H. injection H as <-. cbn. lia.
  - apply decimal_cons in H. destruct H as [Hc [m [Hm ->]]].
    specialize (IH m Hm). cbn [String.length].
    rewrite Nat2N.inj_succ, N.pow_succ_r'. nia.
Qed.

(** On decimal identifiers of the same length, the order of the strings
    is the order of the numbers. *)
Lemma leb_decimal (s1 : string) :
  forall s2 n1 n2,
    String.length s1 = String.length s2 ->
    decimal 0 s1 = Some n1 -> decimal 0 s2 = Some n2 ->
    String.leb s1 s2 = true -> (n1 <= n2)%N.
Proof.
  induction s1 as [|c1 s1 IH]; intros [|c2 s2] n1 n2 Hlen H1 H2 Hle;
    try discriminate.
  - cbn in H1, H2. injection H1 as <-. injection H2 as <-. lia.
  - cbn [String.length] in Hlen. injection Hlen as Hlen.
    apply decimal_cons in H1. destruct H1 as [Hc1 [m1 [Hm1 ->]]].
    apply decimal_cons in H2. destruct H2 as [Hc2 [m2 [Hm2 ->]]].
    pose proof (decimal_bound _ _ Hm1) as Hb1.
    pose proof (decimal_bound _ _ Hm2) as Hb2.
    rewrite Hlen in *.
    unfold String.leb in Hle. cbn [String.compare] in Hle.
    unfold Ascii.compare in Hle.
    destruct (N.compare_spec (N_of_ascii c1) (N_of_ascii c2)) as [E|E|E].
    + rewrite E.
      assert (Hm : (m1 <= m2)%N).
      { apply (IH s2); auto. }
      nia.
    + nia.
    + discriminate.
Qed.

Lemma Sorted_on_members {A} (R R' : A -> A -> Prop) (l : list A) :
  (forall x y, In x l -> In y l -> R x y -> R' x y) ->
  Sorted R l -> Sorted R' l.
Proof.
  intros Himp Hs. induction Hs as [|x l Hs IH Hhd]; [constructor|].
  constructor.
  - apply IH. intros a b Ha Hb. apply Himp; now right.
  - destruct Hhd as [|y l' Hxy]; constructor.
    apply Himp; cbn; auto.
Qed.

Lemma export_versions_lists (env : Env) (vs : list ModelVersion)
    (output_dir : string) (opts : Options) (t : trace)
    (outs fails : list dict) :
  fst (_export_versions env vs output_dir opts t) = Ok (outs, fails) ->
  Permutation outs
    (descriptors env output_dir opts (filter (selected env opts) vs))
  /\ Sorted version_string_le outs
  /\ fails = failure_records env output_dir opts (filter (selected env opts) vs).
Proof.
  rewrite export_versions_run. cbn [fst].
  destruct (first_crash _ _ _ _); [discriminate|].
  destruct (sort_by_version _) as [outs'|] eqn:Hs; [|discriminate].
  intros H. injection H as <- <-.
  apply sort_by_version_spec in Hs. destruct Hs as [Hp Hsorted].
  auto.
Qed.

(** X14. When [_export_versions] returns, its success list holds the
    descriptors of the selected versions that were exported, each once,
    in ascending order of the version identifiers compared as strings. *)
Theorem export_versions_sorted_by_identifier (env : Env)
    (vs : list ModelVersion) (output_dir : string) (opts : Options)
    (t : trace) (outs fails : list dict) :
  fst (_export_versions env vs output_dir opts t) = Ok (outs, fails) ->
  Permutation outs
    (descriptors env output_dir opts (filter (selected env opts) vs))
  /\ Sorted version_string_le outs.
Proof.
  intros H. apply export_versions_lists in H. tauto.
Qed.

Lemma export_versions_sorted_by_identifier_witness :
  Permutation (fst Sample2.lists_m1)
    (descriptors Demo.env "out" Demo.opts_all
       (filter (selected Demo.env Demo.opts_all) Demo.versions_m1))
  /\ Sorted version_string_le (fst Sample2.lists_m1).
Proof.
  apply (export_versions_sorted_by_identifier Demo.env Demo.versions_m1
           "out" Demo.opts_all [] (fst Sample2.lists_m1)
           (snd Sample2.lists_m1)).
  reflexivity.
Defined.

(** X15. When the version identifiers of the listing are decimal numbers
    with the same number of digits, the success list is in ascending order
    of the version numbers. *)
Theorem export_versions_numeric_order (env : Env)
    (vs : list ModelVersion) (output_dir : string) (opts : Options)
    (t : trace) (outs fails : list dict) (digits : nat) :
  (forall vr, In vr vs ->
              String.length (version vr) = digits
              /\ exists n, version_number (version vr) = Some n) ->
  fst (_export_versions env vs output_dir opts t) = Ok (outs, fails) ->
  Sorted version_number_le outs.
Proof.
  intros Hids H. apply export_versions_lists in H.
  destruct H as [Hp [Hs _]].
  assert (Hkey : forall d, In d outs ->
                   exists vr, In vr vs /\ version_key d = Ok (version vr)).
  { intros d Hd. apply (Permutation_in _ Hp) in Hd.
    apply descriptors_In in Hd. destruct Hd as [vr [Hvr Ha]].
    apply filter_In in Hvr. exists vr. split; [tauto|].
    apply attempt_identity in Ha. destruct Ha as [_ [Hv _]].
    unfold version_key. now rewrite Hv. }
  apply (Sorted_on_members version_string_le); auto.
  intros d1 d2 H1 H2 [k1 [k2 [Hk1 [Hk2 Hle]]]].
  destruct (Hkey _ H1) as [vr1 [Hin1 Hv1]].
  destruct (Hkey _ H2) as [vr2 [Hin2 Hv2]].
  rewrite Hk1 in Hv1. rewrite Hk2 in Hv2.
  injection Hv1 as ->. injection Hv2 as ->.
  destruct (Hids _ Hin1) as [Hl1 [n1 Hn1]].
  destruct (Hids _ Hin2) as [Hl2 [n2 Hn2]].
  exists (version vr1), (version vr2), n1, n2.
  repeat split; auto.
  apply (leb_decimal (version vr1) (version vr2)); auto.
  - congruence.
  - unfold version_number in Hn1. now destruct (version vr1).
  - unfold version_number in Hn2. now destruct (version vr2).
Qed.

Lemma export_versions_numeric_order_witness :
  Sorted version_number_le (fst Sample2.lists_m1).
Proof.
  apply (export_versions_numeric_order Demo.env Demo.versions_m1 "out"
           Demo.opts_all [] (fst Sample2.lists_m1) (snd Sample2.lists_m1)
           1).
  - intros vr [<-|[<-|[<-|[]]]]; split; try reflexivity;
      eexists; reflexivity.
  - reflexivity.
Defined.

(** ** The command of the model export *)

Lemma split_comma_length (s : string) : (0 < List.length (split_comma s))%nat.
Proof.
  destruct (split_comma_cons s) as [t [ts ->]]. cbn. lia.
Qed.

(** X16. The command of the model export raises the configuration error
    when [--stages] and [--versions] are both given as non-empty strings.
    In every other case it returns [None], whatever the export did: a
    failed export, for which [export_model] gives [False], is not told to
    the caller of the command. *)
Theorem export_command_result (env : Env) (model output_dir : string)
    (stages versions : option string)
    (latest deleted version_model permissions : bool)
    (formats : option (list string)) (t : list ExportModelCli.cli_event) :
  let r := fst (ExportModelCli.main env model output_dir stages versions
                  latest deleted version_model permissions formats t) in
  if ExportModelCli.given stages && ExportModelCli.given versions
  then exists S V,
         r = Raise (MlflowExportImportException
                      "Both stages and versions cannot be set" S V 400)
  else r = Ok tt.
Proof.
  cbv zeta. unfold ExportModelCli.main.
  unfold bind at 1, ExportModelCli.info at 1.
  unfold bind at 1. cbn [for_each]. unfold bind at 1 2 3 4 5 6 7 8 9.
  unfold ExportModelCli.info, ret at 1. cbn [fst snd].
  unfold bind at 1, ExportModelCli.run_export.
  set (st := match stages with Some s => StagesStr s | None => StagesNone
             end).
  set (vl := if ExportModelCli.given versions
             then match versions with
                  | Some s => split_comma s
                  | None => []
                  end
             else []).
  pose proof (export_model_unfold env model output_dir st (Some vl) latest
                version_model permissions deleted formats []) as Hu.
  cbv zeta in Hu. cbn [versions_of] in Hu.
  assert (HS : (0 <? List.length (map (str_lower env) (tokens_of st)))%nat
               = ExportModelCli.given stages).
  { unfold st, ExportModelCli.given.
    destruct stages as [s|]; [|reflexivity].
    cbn [tokens_of]. destruct (s =? ""); [reflexivity|]. cbn [negb].
    apply Nat.ltb_lt. rewrite length_map. apply split_comma_length. }
  assert (HV : (0 <? List.length vl)%nat = ExportModelCli.given versions).
  { unfold vl. destruct (ExportModelCli.given versions) eqn:E;
      [|reflexivity].
    destruct versions as [s|]; [|discriminate].
    apply Nat.ltb_lt, split_comma_length. }
  rewrite HS, HV in Hu. rewrite Hu.
  destruct (ExportModelCli.given stages && ExportModelCli.given versions).
  - cbn. eauto.
  - destruct (_export_model _ _ _ _ _) as [[[]|e] t2]; [reflexivity|].
    destruct e; reflexivity.
Qed.

(** ** The run copy and its command *)

Lemma copy_state (env : CopyRun.Env)
    (src_run_id dst_experiment_name src_mlflow_uri dst_mlflow_uri : string)
    (s : CopyRun.fs) :
  let d := CopyRun.mkdtemp env s in
  let src := CopyRun.Build_MlflowClient src_mlflow_uri src_mlflow_uri in
  let dst := CopyRun.Build_MlflowClient dst_mlflow_uri dst_mlflow_uri in
  snd (CopyRun.copy env src_run_id dst_experiment_name src_mlflow_uri
         dst_mlflow_uri s)
  = CopyRun.rmtree d
      (match CopyRun.export_run env src_run_id d ["SOURCE"] src
               (CopyRun.mkdir d s) with
       | (Raise _, s1) => s1
       | (Ok _, s1) =>
           snd (CopyRun.import_run env d dst_experiment_name dst s1)
       end).
Proof.
  cbv zeta.
  unfold CopyRun.copy, CopyRun._copy, CopyRun.with_TemporaryDirectory, bind.
  destruct (CopyRun.export_run env _ _ _ _ _) as [[[]|e] s1]; auto.
  destruct (CopyRun.import_run env _ _ _ s1) as [[[dst_run meta]|e] s2];
    auto.
Qed.

(** X17. [copy] exports with a client of the source server and imports,
    from the same staging directory, with a client of the destination
    server, each client using its server for tracking and for the
    registry. The removal of the staging directory takes away nothing
    else: a path that is not under it exists after [copy] exactly when
    the exporter and the importer left it there. *)
Theorem copy_removes_only_staging_dir (env : CopyRun.Env)
    (src_run_id dst_experiment_name src_mlflow_uri dst_mlflow_uri : string)
    (s : CopyRun.fs) (p : string) :
  let d := CopyRun.mkdtemp env s in
  let src := CopyRun.Build_MlflowClient src_mlflow_uri src_mlflow_uri in
  let dst := CopyRun.Build_MlflowClient dst_mlflow_uri dst_mlflow_uri in
  CopyRun.under d p = false ->
  (In p (snd (CopyRun.copy env src_run_id dst_experiment_name
                src_mlflow_uri dst_mlflow_uri s))
   <-> In p (match CopyRun.export_run env src_run_id d ["SOURCE"] src
                     (CopyRun.mkdir d s) with
             | (Raise _, s1) => s1
             | (Ok _, s1) =>
                 snd (CopyRun.import_run env d dst_experiment_name dst s1)
             end)).
Proof.
  cbv zeta. intros Hp. rewrite copy_state. cbv zeta.
  unfold CopyRun.rmtree. rewrite filter_In, Hp. cbn. tauto.
Qed.

Lemma copy_removes_only_staging_dir_witness :
  In "/tmp" (snd (CopyRun.copy Demo.copy_env "r1" "exp-dst" "http://a"
                    "http://b" ["/tmp"]))
  <-> In "/tmp" ["/tmp/tmpabcd/run.json"; "/tmp/tmpabcd"; "/tmp"].
Proof.
  apply (copy_removes_only_staging_dir Demo.copy_env "r1" "exp-dst"
           "http://a" "http://b" ["/tmp"] "/tmp").
  reflexivity.
Defined.

(** X18. The command of the run copy prints its four options, then
    copies. It returns [None] when the copy returned, dropping the run it
    got, and raises what the copy raised; in both cases the staging
    directory is gone when the command is over. *)
Theorem copy_command_outcome (env : CopyRun.Env)
    (run_id experiment_name src_mlflow_uri dst_mlflow_uri : string)
    (out : list string) (s : CopyRun.fs) :
  let after := CopyRunCli.main env run_id experiment_name src_mlflow_uri
                 dst_mlflow_uri (out, s) in
  fst (snd after)
  = out ++ [ "Options:";
             ("  run_id: " ++ run_id)%string;
             ("  experiment_name: " ++ experiment_name)%string;
             ("  src_mlflow_uri: " ++ src_mlflow_uri)%string;
             ("  dst_mlflow_uri: " ++ dst_mlflow_uri)%string ]
  /\ CopyRun.exists_path (CopyRun.mkdtemp env s) (snd (snd after)) = false
  /\ fst after
     = match fst (CopyRun.copy env run_id experiment_name src_mlflow_uri
                    dst_mlflow_uri s) with
       | Ok _ => Ok tt
       | Raise e => Raise e
       end.
Proof.
  cbv zeta.
  pose proof (copy_state env run_id experiment_name src_mlflow_uri
                dst_mlflow_uri s) as Hst.
  cbv zeta in Hst.
  cbv beta iota zeta
    delta [CopyRunCli.main CopyRunCli.print CopyRunCli.on_fs bind ret
           for_each].
  cbn [fst snd].
  destruct (CopyRun.copy env run_id experiment_name src_mlflow_uri
              dst_mlflow_uri s) as [[dst_run|e] s'];
    cbn [fst snd] in *; subst s';
    (split; [now rewrite <- !app_assoc|]);
    (split; [apply rmtree_not_exists | reflexivity]).
Qed.

(** ** When [_export_versions] raises *)

Lemma first_crash_Some (env : Env) (output_dir : string) (opts : Options)
    (vs : list ModelVersion) (e : exn) :
  first_crash env output_dir opts vs = Some e ->
  is_RestException e = false
  /\ exists l1 vr l2,
       vs = l1 ++ vr :: l2
       /\ attempt env output_dir opts vr = Raise e
       /\ forallb (fun vr => negb (crashed env output_dir opts vr)) l1
          = true.
Proof.
  induction vs as [|vr vs IH]; cbn [first_crash]; [discriminate|].
  destruct (attempt env output_dir opts vr) as [d|e'] eqn:Ha.
  - intros H. destruct (IH H) as [He [l1 [vr' [l2 [-> [Ha' Hb]]]]]].
    split; auto. exists (vr :: l1), vr', l2. repeat split; auto.
    cbn [forallb]. unfold crashed at 1. now rewrite Ha.
  - destruct e';
      try (intros H; injection H as <-; split; [reflexivity|];
           exists [], vr; eexists; repeat split; eauto; fail).
    intros H. destruct (IH H) as [He [l1 [vr' [l2 [-> [Ha' Hb]]]]]].
    split; auto. exists (vr :: l1), vr', l2. repeat split; auto.
    cbn [forallb]. unfold crashed at 1. now rewrite Ha.
Qed.

(** X19. [_export_versions] returns exactly when no selected version
    crashes. It never raises a [RestException]: what it raises is the
    exception, of another kind, of the first selected version of the
    listing whose export crashed. *)
Theorem export_versions_raises_first_crash (env : Env)
    (vs : list ModelVersion) (output_dir : string) (opts : Options)
    (t : trace) :
  match fst (_export_versions env vs output_dir opts t) with
  | Ok _ =>
      forallb (fun vr => negb (crashed env output_dir opts vr))
        (filter (selected env opts) vs) = true
  | Raise e =>
      is_RestException e = false
      /\ exists l1 vr l2,
           filter (selected env opts) vs = l1 ++ vr :: l2
           /\ attempt env output_dir opts vr = Raise e
           /\ forallb (fun vr => negb (crashed env output_dir opts vr)) l1
              = true
  end.
Proof.
  rewrite export_versions_run. cbn [fst].
  destruct (first_crash env output_dir opts (filter (selected env opts) vs))
    as [e|] eqn:Hfc.
  - now apply first_crash_Some.
  - destruct (sort_descriptors env output_dir opts
                (filter (selected env opts) vs)) as [outs ->].
    now apply first_crash_None.
Qed.

(** ** The options of [export_model] reach the collaborators *)

Lemma attempt_events_forwarded (env : Env) (model_name output_dir : string)
    (opts : Options) (vr : ModelVersion) :
  Forall (options_forwarded model_name output_dir opts)
    (attempt_events env output_dir opts vr).
Proof.
  unfold attempt_events, export_version_try, bind, call, ret. cbn.
  destruct (export_run env _ _ _ _) as [[]|]; cbn;
    [|repeat constructor].
  destruct (get_run env _) as [run|]; cbn; [|repeat constructor].
  destruct (get_experiment env _) as [ex|]; cbn; [|repeat constructor].
  destruct (export_version_model opts) eqn:E; cbn; [|repeat constructor].
  destruct (model_utils_export_version_model env _ _); cbn;
    repeat constructor; cbn; auto.
Qed.

Lemma versions_events_forwarded (env : Env) (model_name output_dir : string)
    (opts : Options) (n : nat) (jvs : list (nat * ModelVersion)) :
  Forall (options_forwarded model_name output_dir opts)
    (versions_events env output_dir opts n jvs).
Proof.
  induction jvs as [|[j vr] jvs IH]; cbn [versions_events];
    [constructor|].
  destruct (selected env opts vr); auto.
  apply Forall_app. split.
  - unfold version_events. constructor; [exact I|].
    apply Forall_app. split; [apply attempt_events_forwarded|].
    destruct (attempt env output_dir opts vr) as [|[]];
      try constructor; [exact I|].
    unfold failure_events.
    destruct (error_code_is _ _); repeat constructor.
  - destruct (crashed env output_dir opts vr); auto.
Qed.

Lemma export_outcome_forwarded (env : Env) (model_name output_dir : string)
    (opts : Options) (r : result unit) (tr : trace) :
  export_outcome env model_name output_dir opts r tr ->
  Forall (options_forwarded model_name output_dir opts) tr.
Proof.
  intros [e Hl | ori e Hl Hfc | ori outs r' evs Hl Hfc Hs Ht].
  - repeat constructor.
  - repeat constructor. apply versions_events_forwarded.
  - repeat constructor. apply Forall_app. split.
    { apply versions_events_forwarded. }
    destruct Ht as [e Hh | resp e Hh He | resp id e Hm Hh Hp
                   | resp mid doc vs e Hh Ha Hw | resp mid doc vs Hh Ha Hw];
      try (repeat constructor; fail).
    + repeat constructor. cbn.
      apply andb_true_iff in Hm. tauto.
    + constructor; [exact I|]. apply Forall_app. split.
      * destruct (assembled_calls _ _ _ _ _ _ _ Ha) as [-> | [Hm [id ->]]];
          repeat constructor. cbn. apply andb_true_iff in Hm. tauto.
      * repeat constructor.
    + constructor; [exact I|]. apply Forall_app. split.
      * destruct (assembled_calls _ _ _ _ _ _ _ Ha) as [-> | [Hm [id ->]]];
          repeat constructor. cbn. apply andb_true_iff in Hm. tauto.
      * repeat constructor.
Qed.

(** X20. Every collaborator called by [export_model] gets the options the
    caller gave: the listing the model name and [export_latest_versions];
    each run export the directory [output_dir]/[run_id],
    [export_deleted_runs] and [notebook_formats]; the cached model of a
    version is exported only with [export_version_model], and the
    permissions are fetched only with [export_permissions]; the file
    written is [model.json] in [output_dir], and its summary repeats
    [export_latest_versions] and [export_permissions]. *)
Theorem export_model_forwards_options (env : Env)
    (model_name output_dir : string) (stages : stages_param)
    (versions : option (list string))
    (latest version_model permissions deleted : bool)
    (formats : option (list string)) :
  Forall (option_forwarded model_name output_dir latest version_model
            permissions deleted formats)
    (snd (export_model env model_name output_dir stages versions latest
            version_model permissions deleted formats [])).
Proof.
  set (is_log := fun ev : event =>
                   match ev with
                   | Log _ _ | Traceback => True
                   | _ => False
                   end).
  assert (Hlogs : forall l,
             Forall is_log l ->
             Forall (option_forwarded model_name output_dir latest
                       version_model permissions deleted formats) l).
  { intros l. apply Forall_impl. intros []; cbn; tauto. }
  rewrite export_model_unfold. cbv zeta.
  set (S := map (str_lower env) (tokens_of stages)).
  assert (HS : Forall (option_forwarded model_name output_dir latest
                         version_model permissions deleted formats)
                 ([] ++ stage_warnings S)).
  { cbn [app]. apply Hlogs. unfold stage_warnings.
    apply Forall_forall. intros ev Hev. apply in_map_iff in Hev.
    destruct Hev as [s [<- _]]. exact I. }
  destruct ((0 <? List.length S)%nat
            && (0 <? List.length (versions_of versions))%nat);
    [exact HS|].
  set (opts := Build_Options _ _ _ _ _ _ _).
  destruct (export_model_outcome_from env model_name output_dir opts
              ([] ++ stage_warnings S)) as [r [evs [Heq Hout]]].
  rewrite Heq.
  apply export_outcome_forwarded in Hout.
  assert (Hall : Forall (option_forwarded model_name output_dir latest
                           version_model permissions deleted formats)
                   (([] ++ stage_warnings S) ++ evs)).
  { apply Forall_app. split; [exact HS | exact Hout]. }
  destruct r as [[]|e]; cbn [snd]; [exact Hall|].
  destruct e; cbn [snd];
    try (apply Forall_app; split; [exact Hall|];
         apply Hlogs; repeat constructor; exact I).
  unfold bind, emit, ret.
  destruct (error_code_is json "RESOURCE_DOES_NOT_EXIST"); cbn [snd];
    repeat (apply Forall_app; split); try exact HS; try exact Hout;
    apply Hlogs; repeat constructor; exact I.
Qed.
